(** * CPU, a CLASS Plotting Utility: header decoding and field selection

    A shallow embedding of [CPU.py] (version 2.0, Python 2) and the
    properties of its header decoder ([extract_headers]), its name
    normalizer ([process_long_names], [replace_scale]), its selection
    handling ([plot_CLASS_output]) and its command line driver ([main]).

    Python [str] values are Rocq [string]s (byte strings); Python
    exceptions are values of [exn], carried by the [result] monad; lists
    are Rocq lists, read with stdpp's lookup [!!] and updated in place
    with stdpp's insert. *)

From Stdlib Require Import ZArith Ascii String.
From stdpp Require Import base list strings gmap.

Local Open Scope string_scope.
Local Open Scope list_scope.
Local Open Scope nat_scope.

(** ** Exceptions *)

(** The four exception classes of [CPU.py] (lines 182-199) and the
    built-in ones the modelled code can raise. [NumpyError] stands for
    whatever [np.loadtxt] raises on a file it cannot parse. *)
Inductive exn : Type :=
  | FormatError (msg : string)
  | TypeError (msg : string)
  | NumberOfFilesError (msg : string)
  | InputError (msg : string)
  | IndexError
  | ValueError
  | IOError
  | NumpyError.

Inductive result (A : Type) : Type :=
  | Ok (a : A)
  | Raise (e : exn).
Arguments Ok {A} a.
Arguments Raise {A} e.

#[global] Instance result_ret : MRet result := fun A a => Ok a.
#[global] Instance result_bind : MBind result := fun A B f m =>
  match m with
  | Ok a => f a
  | Raise e => Raise e
  end.
#[global] Instance result_fmap : FMap result := fun A B f m =>
  match m with
  | Ok a => Ok (f a)
  | Raise e => Raise e
  end.

Definition is_Ok {A} (r : result A) : Prop := exists a, r = Ok a.

(** ** Python primitives *)

Module Py.

(** Characters and conversions. *)
Definition chars (s : string) : list ascii := list_ascii_of_string s.
Definition join (l : list ascii) : string := string_of_list_ascii l.
Definition len (s : string) : nat := String.length s.

Definition squote : ascii := ascii_of_nat 39.
Definition dquote : ascii := ascii_of_nat 34.
Definition backslash : ascii := ascii_of_nat 92.
Definition newline : ascii := ascii_of_nat 10.

(** [str.isspace] on one byte (C locale): tab, line feed, vertical tab,
    form feed, carriage return and space. *)
Definition is_space (c : ascii) : bool :=
  let n := nat_of_ascii c in
  ((9 <=? n) && (n <=? 13)) || (n =? 32).

(** [s.lstrip()], [s.rstrip()], [s.strip()]. *)
Fixpoint lstrip_chars (l : list ascii) : list ascii :=
  match l with
  | c :: l' => if is_space c then lstrip_chars l' else l
  | [] => []
  end.

Fixpoint rstrip_chars (l : list ascii) : list ascii :=
  match l with
  | c :: l' =>
      match rstrip_chars l' with
      | [] => if is_space c then [] else [c]
      | r => c :: r
      end
  | [] => []
  end.

Definition strip (s : string) : string :=
  join (rstrip_chars (lstrip_chars (chars s))).

(** Slice bounds: a negative bound counts from the end, and the result
    is clamped to [0, len]. *)
Definition clamp (n : nat) (i : Z) : nat :=
  let i' := if (i <? 0)%Z then (i + Z.of_nat n)%Z else i in
  if (i' <? 0)%Z then 0 else Nat.min (Z.to_nat i') n.

(** [s[lo:hi]] *)
Definition slice (s : string) (lo hi : Z) : string :=
  let a := clamp (len s) lo in
  let b := clamp (len s) hi in
  join (take (b - a) (drop a (chars s))).

(** [s[lo:]] *)
Definition slice_from (s : string) (lo : Z) : string :=
  join (drop (clamp (len s) lo) (chars s)).

(** [s[:hi]] *)
Definition slice_to (s : string) (hi : Z) : string :=
  join (take (clamp (len s) hi) (chars s)).

(** [s.startswith(sub, start)] for [0 <= start <= len(s)], the only
    way the program calls it. *)
Definition startswith (s sub : string) (start : nat) : bool :=
  String.prefix sub (join (drop start (chars s))).

(** The offsets at which [sub] occurs in [s], in increasing order. *)
Definition occurrences (s sub : string) : list nat :=
  filter (fun i => startswith s sub i = true) (seq 0 (S (len s))).

(** [s.find(sub)] and [s.rfind(sub)]: [-1] when [sub] does not occur. *)
Definition find (s sub : string) : Z :=
  match occurrences s sub with
  | i :: _ => Z.of_nat i
  | [] => (-1)%Z
  end.

Definition rfind (s sub : string) : Z :=
  match last (occurrences s sub) with
  | Some i => Z.of_nat i
  | None => (-1)%Z
  end.

(** [s.index(sub)]: as [find], but raises [ValueError]. *)
Definition index (s sub : string) : result nat :=
  match occurrences s sub with
  | i :: _ => Ok i
  | [] => Raise ValueError
  end.

(** [sub in s] for two strings. *)
Definition contains (s sub : string) : bool :=
  bool_decide (occurrences s sub <> []).

(** [l.index(x)] on a list of strings. *)
Fixpoint list_index (l : list string) (x : string) : result nat :=
  match l with
  | [] => Raise ValueError
  | y :: l' => if decide (y = x) then Ok 0 else S <$> list_index l' x
  end.

(** [l[i]] and [l[-1]] on a list. *)
Definition item {A} (l : list A) (i : nat) : result A :=
  match l !! i with
  | Some a => Ok a
  | None => Raise IndexError
  end.

Definition last_item {A} (l : list A) : result A :=
  match last l with
  | Some a => Ok a
  | None => Raise IndexError
  end.

(** [l.pop(i)] for [i >= 0]: the list without its [i]-th item. *)
Definition pop {A} (l : list A) (i : nat) : result (list A) :=
  match l !! i with
  | Some _ => Ok (delete i l)
  | None => Raise IndexError
  end.

(** [l[i:i] = ins]: slice assignment that inserts [ins] before offset
    [i] (at the end when [i] exceeds the length). *)
Definition insert_slice {A} (l : list A) (i : nat) (ins : list A) : list A :=
  take i l ++ ins ++ drop i l.

(** The lines a file object yields: each keeps its line feed, and the
    text after the last line feed, if any, is a line of its own. *)
Fixpoint lines_go (cur : list ascii) (l : list ascii) : list string :=
  match l with
  | [] => match cur with [] => [] | _ => [join (rev cur)] end
  | c :: l' =>
      if decide (c = newline) then join (rev (c :: cur)) :: lines_go [] l'
      else lines_go (c :: cur) l'
  end.

Definition lines (text : string) : list string := lines_go [] (chars text).

(** [repr(s)] of a [str] and [repr(l)] of a list of [str]. *)
Definition hex_digit (n : nat) : ascii :=
  if n <? 10 then ascii_of_nat (48 + n) else ascii_of_nat (87 + n).

Definition repr_char (quote c : ascii) : list ascii :=
  let n := nat_of_ascii c in
  if decide (c = quote) then [backslash; c]
  else if decide (c = backslash) then [backslash; c]
  else if n =? 9 then [backslash; "t"%char]
  else if n =? 10 then [backslash; "n"%char]
  else if n =? 13 then [backslash; "r"%char]
  else if (n <? 32) || (127 <=? n)
       then [backslash; "x"%char; hex_digit (n / 16); hex_digit (n mod 16)]
  else [c].

Definition repr (s : string) : string :=
  let cs := chars s in
  let quote :=
    if bool_decide (squote ∈ cs) && negb (bool_decide (dquote ∈ cs))
    then dquote else squote in
  join (quote :: concat (map (repr_char quote) cs) ++ [quote]).

Fixpoint comma_join (l : list string) : string :=
  match l with
  | [] => ""
  | [x] => x
  | x :: l' => x +:+ ", " +:+ comma_join l'
  end.

Definition repr_list (l : list string) : string :=
  "[" +:+ comma_join (map repr l) +:+ "]".

End Py.

(** ** The name normalizer *)

(** [replace_scale] (lines 202-213): drop the character at offset 1 and
    insert the expanded scale there. *)
Definition replace_scale (string : String.string) : result String.string :=
  let string_list := Py.chars string in
  string_list ← Py.pop string_list 1;
  let string_list := Py.insert_slice string_list 1 (Py.chars "8\pi G/3") in
  mret (Py.join string_list).

(** First pass of [process_long_names] (lines 228-240): the loop over
    [long_names], appending to [names] and [tex_names]. *)
Fixpoint first_pass (long_names names tex_names : list string)
  : result (list string * list string) :=
  match long_names with
  | [] => mret (names, tex_names)
  | name :: rest =>
      if Py.startswith name "(.)" 0 then
        let temp_name := Py.slice_from name 3 in
        tex ← replace_scale name;
        first_pass rest (names ++ [temp_name]) (tex_names ++ [tex])
      else
        first_pass rest (names ++ [name]) (tex_names ++ [name])
  end.

(** One iteration of the second pass (lines 245-248) on the item [name]
    found at offset [index] of [names]. *)
Definition second_pass_step (names : list string) (index : nat) (name : string)
  : result (list string) :=
  if negb (Py.find name "(" =? -1)%Z then
    i ← Py.index name "(";
    mret (<[index := Py.slice_to name (Z.of_nat i)]> names)
  else if negb (Py.find name "[" =? -1)%Z then
    i ← Py.index name "[";
    mret (<[index := Py.slice_to name (Z.of_nat i)]> names)
  else mret names.

(** Second pass (lines 244-248): [enumerate(names)] reads the list that
    the body updates, so the item of each iteration is looked up in the
    current list; the loop ends when the offset reaches its length. *)
Fixpoint second_pass (fuel : nat) (index : nat) (names : list string)
  : result (list string) :=
  match fuel with
  | 0 => mret names
  | S fuel' =>
      match names !! index with
      | None => mret names
      | Some name =>
          names' ← second_pass_step names index name;
          second_pass fuel' (S index) names'
      end
  end.

(** [process_long_names] (lines 216-250). The second pass never changes
    the length of [names], so [length names] iterations exhaust it. *)
Definition process_long_names (long_names : list string)
  : result (list string * list string) :=
  '(names, tex_names) ← first_pass long_names [] [];
  names ← second_pass (length names) 0 names;
  mret (names, tex_names).

(** ** The header decoder *)

(** The files the program can open: path to text. *)
Abbreviation file_system := (gmap string string).

(** [open(path, 'r')] followed by a full read: [IOError] when the path
    names no file. *)
Definition read_file (fs : file_system) (path : string) : result string :=
  match fs !! path with
  | Some text => Ok text
  | None => Raise IOError
  end.

(** Line 255: [[line for line in header_file if line[0] == '#']]. *)
Fixpoint comment_lines (header_file : list string) : result (list string) :=
  match header_file with
  | [] => mret []
  | line :: rest =>
      c ← Py.item (Py.chars line) 0;
      header ← comment_lines rest;
      mret (if decide (c = "#"%char) then line :: header else header)
  end.

(** Lines 255-256: the last comment line of the text of a file. *)
Definition header_line (text : string) : result string :=
  header ← comment_lines (Py.lines text);
  Py.last_item header.

(** Lines 260-261: one more than the offset of each [':'] of the header. *)
Definition marker_indices (header : string) : list nat :=
  (fun i => i + 1) <$>
    filter (fun i => Py.startswith header ":" i = true) (seq 0 (Py.len header)).

(** Lines 263-264: the long name of column [i]. *)
Definition long_name (header : string) (indices : list nat) (num_columns i : nat)
  : result string :=
  if (Z.of_nat i <? Z.of_nat num_columns - 1)%Z then
    a ← Py.item indices i;
    b ← Py.item indices (i + 1);
    mret (Py.strip (Py.slice header (Z.of_nat a) (Z.of_nat b - 3)))
  else
    a ← Py.item indices i;
    mret (Py.strip (Py.slice_from header (Z.of_nat a))).

(** Lines 260-265: the header line split into its long names. *)
Definition split_header (header : string) : result (nat * list string) :=
  let indices := marker_indices header in
  let num_columns := length indices in
  long_names ← mapM (long_name header indices num_columns) (seq 0 num_columns);
  mret (num_columns, long_names).

(** Lines 258-271 of [extract_headers]: what is done with the header
    line once it is found. *)
Definition decode_header (header : string)
  : result (nat * list string * list string) :=
  '(num_columns, long_names) ← split_header header;
  '(names, tex_names) ← process_long_names long_names;
  mret (num_columns, names, tex_names).

(** [extract_headers] (lines 253-271). *)
Definition extract_headers (fs : file_system) (header_path : string)
  : result (nat * list string * list string) :=
  text ← read_file fs header_path;
  header ← header_line text;
  decode_header header.

(** ** Selection and plotting *)

(** The [selection] argument of [plot_CLASS_output]: "list, or string". *)
Inductive selection : Type :=
  | SelStr (s : string)
  | SelList (l : list string).

(** [name in selection]: a substring test on a string, membership in a
    list. *)
Definition in_selection (name : string) (sel : selection) : bool :=
  match sel with
  | SelStr s => Py.contains s name
  | SelList l => bool_decide (name ∈ l)
  end.

(** [for selec in selection]: the characters of a string, the items of
    a list. *)
Definition selection_items (sel : selection) : list string :=
  match sel with
  | SelStr s => (fun c => String c "") <$> Py.chars s
  | SelList l => l
  end.

(** Lines 135-140: the validation loop over the selection. *)
Fixpoint validate_selection (names : list string) (items : list string)
  : result unit :=
  match items with
  | [] => mret tt
  | elem :: rest =>
      if negb (bool_decide (elem ∈ names)) then
        Raise (InputError
          (("The entry 'selection' must contain names of the fields " +:+
            "in the specified files. You asked for " +:+ elem +:+ " ") +:+
           ("where I only found " +:+ Py.repr_list names +:+ ".")))
      else validate_selection names rest
  end.

(** Lines 128-140 of [plot_CLASS_output]: "check if everything is in
    order"; the value is the selection used from there on. *)
Definition check_selection (num_columns : nat) (names : list string)
    (sel : selection) : result selection :=
  if decide (num_columns = 2) then
    name ← Py.item names 1;
    mret (SelList [name])
  else if decide (2 < num_columns) then
    let sel := match sel with SelStr s => SelList [s] | _ => sel end in
    _ ← validate_selection names (selection_items sel);
    mret sel
  else mret sel.

(** What matplotlib is asked to draw for one curve: [ax.plot],
    [ax.loglog], or nothing for any other scale. *)
Inductive draw : Type := AxPlot | AxLoglog | AxNothing.

Definition draw_of_scale (scale : string) : draw :=
  if decide (scale = "lin") then AxPlot
  else if decide (scale = "loglog") then AxLoglog
  else AxNothing.

(** One pass of the inner loop (lines 155-163): the file, the column
    found for the selected name, and the call made. *)
Record curve : Type := Curve {
  curve_file : nat;
  curve_column : nat;
  curve_draw : draw
}.

(** What one run of [plot_CLASS_output] produces: the lines written to
    the replay script and the calls made on the axes. The literal text
    of the script and the pixels are not modelled. *)
Record figure : Type := Figure {
  fig_script_path : string;
  fig_selection : selection;
  fig_tex_names : list string;
  fig_curves : list curve;
  fig_legend : option (list string)
}.

(** Line 117: [elem.split(os.path.sep)[-1].split('.')[0]], with ['/'] as
    separator. *)
Fixpoint split_go (sep : ascii) (cur : list ascii) (l : list ascii)
  : list string :=
  match l with
  | [] => [Py.join (rev cur)]
  | c :: l' =>
      if decide (c = sep) then Py.join (rev cur) :: split_go sep [] l'
      else split_go sep (c :: cur) l'
  end.

Definition split (s : string) (sep : ascii) : list string :=
  split_go sep [] (Py.chars s).

Definition root_of (elem : string) : result string :=
  base ← Py.last_item (split elem "/"%char);
  Py.item (split base "."%char) 0.

(** Lines 154-163: the body of the loop over the loaded files. *)
Definition plot_curves (fs : file_system) (files : list string)
    (sel : selection) (scale : string) (idx : nat) : result (list curve) :=
  file ← Py.item files idx;
  '(_, curve_names, _) ← extract_headers fs file;
  mapM (fun selec =>
          index ← Py.list_index curve_names selec;
          mret (Curve idx index (draw_of_scale scale)))
       (selection_items sel).

(** The parsed command line (lines 53-70). *)
Record args : Type := Args {
  args_files : list string;
  args_ratio : bool;
  args_selection : option (list string);
  args_scale : option string
}.

(** How [main] returns when it raises nothing. *)
Inductive outcome : Type :=
  | PrintUsage
  | Rendered (fig : figure).

(** Lines 291-303: the selection and the scale inferred from the name of
    the first file when no selection is given. *)
Definition infer_selection (a : args) : result (selection * string) :=
  match args_selection a with
  | None | Some [] =>
      file0 ← Py.item (args_files a) 0;
      if negb (Py.rfind file0 "cl" =? -1)%Z then mret (SelStr "TT", "loglog")
      else if negb (Py.rfind file0 "pk" =? -1)%Z then mret (SelStr "P", "loglog")
      else Raise (TypeError "Please specify a field to plot")
  | Some l => mret (SelList l, "")
  end.

Section Plot.

(** [np.loadtxt] is numpy's: the numeric table of a text, or nothing
    when numpy rejects it. *)
Context {data : Type} (parse : string -> option data).

Definition loadtxt (fs : file_system) (data_file : string) : result data :=
  text ← read_file fs data_file;
  match parse text with
  | Some d => Ok d
  | None => Raise NumpyError
  end.

(** [plot_CLASS_output] (lines 74-179). *)
Definition plot_CLASS_output (fs : file_system) (files : list string)
    (sel : selection) (ratio : bool) (scale : string) : result figure :=
  data ← mapM (loadtxt fs) files;
  file0 ← Py.item files 0;
  let python_script_path := file0 +:+ ".py" in
  roots ← mapM root_of files;
  '(num_columns, names, tex_names) ← extract_headers fs file0;
  sel ← check_selection num_columns names sel;
  let tex := fst <$> filter (fun p => in_selection (snd p) sel = true)
                            (zip tex_names names) in
  if negb ratio then
    curves ← mapM (plot_curves fs files sel scale) (seq 0 (length data));
    let legend := root ← roots; elem ← selection_items sel;
                  [root +:+ ": " +:+ elem] in
    mret (Figure python_script_path sel tex (concat curves) (Some legend))
  else
    ref ← Py.item data 0;
    mret (Figure python_script_path sel tex [] None).

(** [main] (lines 274-321), after [parser.parse_args()]. *)
Definition main (fs : file_system) (a : args) : result outcome :=
  if decide (length (args_files a) = 0) then mret PrintUsage
  else if args_ratio a then
    Raise (InputError "Sorry, this is not working yet")
  else
    '(sel, scale) ← infer_selection a;
    let given := default "" (args_scale a) in
    let scale :=
      if decide (given = "") then
        if decide (scale = "") then "lin" else scale
      else given in
    _ ← (if args_ratio a then
           if decide (length (args_files a) < 2) then
             Raise (NumberOfFilesError
               ("If you want me to compute a ratio between two files, " +:+
                "I strongly encourage you to give me at least two of them."))
           else mret tt
         else mret tt);
    fig ← plot_CLASS_output fs (args_files a) sel (args_ratio a) scale;
    mret (Rendered fig).

End Plot.

(** ** The normalizer, one name at a time *)

(** The characters of [l] that come before the first [c] (all of them
    when [l] has no [c]). *)
Fixpoint before (c : ascii) (l : list ascii) : list ascii :=
  match l with
  | [] => []
  | x :: l' => if decide (x = c) then [] else x :: before c l'
  end.

Definition truncate_at (c : ascii) (name : string) : string :=
  Py.join (before c (Py.chars name)).

(** A name cut at its first ['('], else at its first ['['], else whole. *)
Definition strip_annotation (name : string) : string :=
  if bool_decide ("("%char ∈ Py.chars name) then truncate_at "(" name
  else if bool_decide ("["%char ∈ Py.chars name) then truncate_at "[" name
  else name.

(** A long name without its leading [(.)], if it has one. *)
Definition provisional_name (long_name : string) : string :=
  match long_name with
  | String "("%char (String "."%char (String ")"%char rest)) => rest
  | _ => long_name
  end.

(** The short name and the display name of one long name. *)
Definition short_name_of (long_name : string) : string :=
  strip_annotation (provisional_name long_name).

Definition display_name_of (long_name : string) : string :=
  match long_name with
  | String "("%char (String "."%char (String ")"%char rest)) =>
      "(8\pi G/3)" +:+ rest
  | _ => long_name
  end.

(** ** The header convention, by offsets *)

(** The offsets of the [':'] characters of a header, in increasing order. *)
Definition markers (header : string) : list nat :=
  filter (fun k => Py.chars header !! k = Some ":"%char)
         (seq 0 (Py.len header)).

(** The characters of [s] at the offsets [a], [a+1], ..., [b]. *)
Definition between (s : string) (a b : Z) : string :=
  Py.join (take (Z.to_nat (b + 1 - a)) (drop (Z.to_nat a) (Py.chars s))).

(** The characters of [s] from offset [a] to its end. *)
Definition from_offset (s : string) (a : nat) : string :=
  Py.join (drop a (Py.chars s)).

(** The text of column [i]: between its marker and the third character
    before the next marker, or up to the end of the line for the last
    marker; trimmed. *)
Definition column_text (header : string) (i : nat) : option string :=
  m ← markers header !! i;
  Some (Py.strip
          match markers header !! (i + 1) with
          | Some m' => between header (Z.of_nat m + 1) (Z.of_nat m' - 3)
          | None => from_offset header (m + 1)
          end).

(** ** The selection, as a sequence of names *)

(** A single string counts as a one-element sequence. *)
Definition requested (sel : selection) : list string :=
  match sel with
  | SelStr s => [s]
  | SelList l => l
  end.

(** The message of the [InputError] raised for the name [elem]. *)
Definition unknown_field (elem : string) (names : list string) : string :=
  "The entry 'selection' must contain names of the fields in the specified files. You asked for "
  +:+ elem +:+ " where I only found " +:+ Py.repr_list names +:+ ".".

(** A computation that does not end in an [InputError]. *)
Definition no_InputError {A} (r : result A) : Prop :=
  forall msg, r <> Raise (InputError msg).

(** ** Worked inputs *)

Definition nl : string := String Py.newline "".

(** A three-column table whose header is [#1:x  2:(.)rho  3:P [Mpc^-3]]. *)
Definition three_columns : string :=
  "#1:x  2:(.)rho  3:P [Mpc^-3]" +:+ nl +:+
  "0.1 1.0 2.0" +:+ nl +:+
  "0.2 1.5 2.5" +:+ nl.

(** A two-column table, as CLASS writes a matter power spectrum. *)
Definition two_columns : string :=
  "# 1:k (h/Mpc)  2:P (Mpc/h)^3" +:+ nl +:+ "0.1 1.0" +:+ nl.

(** A table without any comment line. *)
Definition no_header : string :=
  "0.1 1.0" +:+ nl +:+ "0.2 1.5" +:+ nl.

(** A table whose comment line holds no [':']. *)
Definition no_markers : string :=
  "# wavenumber and power" +:+ nl +:+ "0.1 1.0" +:+ nl.

Definition disk : file_system :=
  {[ "output/bg.dat" := three_columns;
     "output/test_pk.dat" := two_columns;
     "output/raw.dat" := no_header;
     "output/plain.dat" := no_markers ]}.

(** A stand-in for numpy that accepts every text. *)
Definition any_table (text : string) : option unit := Some tt.

(** ** Vocabulary of the further properties *)

(** A computation that, when it raises, raises an exception in [P]. *)
Definition raises_only {A} (P : exn -> Prop) (r : result A) : Prop :=
  forall e, r = Raise e -> P e.

(** The exceptions that come from Python and numpy rather than from
    [CPU.py]. *)
Definition builtin_error (e : exn) : Prop :=
  e = IndexError \/ e = ValueError \/ e = IOError \/ e = NumpyError.

(** A line that a file object yields and that starts with ['#']. *)
Definition is_comment (line : string) : Prop :=
  Py.chars line !! 0 = Some "#"%char.

(** A string that neither starts nor ends with a whitespace character. *)
Definition trimmed (s : string) : Prop :=
  (forall c, head (Py.chars s) = Some c -> Py.is_space c = false) /\
  (forall c, last (Py.chars s) = Some c -> Py.is_space c = false).

(** A long name without its scale marker, as line 234 computes it. *)
Definition without_marker (long_name : string) : string :=
  if Py.startswith long_name "(.)" 0 then Py.slice_from long_name 3
  else long_name.


(** The scale [main] passes on: the one given on the command line, else
    the one that goes with the inferred field, else ['lin']. *)
Definition chosen_scale (a : args) (inferred : string) : string :=
  let given := default "" (args_scale a) in
  if decide (given = "") then
    if decide (inferred = "") then "lin" else inferred
  else given.

(** The exceptions [plot_CLASS_output] can end in. *)
Definition plot_error (e : exn) : Prop :=
  (exists msg, e = InputError msg) \/ builtin_error e.




(** * Properties *)

(** ** The primitives on small inputs *)

Example strip_both_ends : Py.strip ("  P [Mpc^-3] " +:+ nl) = "P [Mpc^-3]".
Proof. reflexivity. Qed.

Example slice_negative_bound : Py.slice "hello" 1 (-1) = "ell".
Proof. reflexivity. Qed.

Example slice_empty_when_crossed : Py.slice "hello" 3 1 = "".
Proof. reflexivity. Qed.

Example find_first_rfind_last :
  Py.find "abcabc" "bc" = 1%Z /\ Py.rfind "abcabc" "bc" = 4%Z /\
  Py.find "abc" "z" = (-1)%Z.
Proof. repeat split; reflexivity. Qed.

Example lines_keep_line_feed :
  Py.lines ("#a" +:+ nl +:+ nl +:+ "b") = ["#a" +:+ nl; nl; "b"].
Proof. reflexivity. Qed.

Example repr_list_of_names :
  Py.repr_list ["x"; "rho"; "P "] = "['x', 'rho', 'P ']".
Proof. reflexivity. Qed.

Example replace_scale_docstring : replace_scale "(.)toto" = Ok "(8\pi G/3)toto".
Proof. reflexivity. Qed.

Example replace_scale_too_short : replace_scale "(" = Raise IndexError.
Proof. reflexivity. Qed.

Example marker_indices_three :
  marker_indices "#1:x  2:(.)rho  3:P [Mpc^-3]" = [3; 8; 18].
Proof. reflexivity. Qed.

Example root_of_path : root_of "output/lcdm_z2_pk.dat" = Ok "lcdm_z2_pk".
Proof. reflexivity. Qed.

(** ** Strings, and the name normalizer *)

Lemma join_chars s : Py.join (Py.chars s) = s.
Proof. apply string_of_list_ascii_of_string. Qed.

Lemma chars_join l : Py.chars (Py.join l) = l.
Proof. apply list_ascii_of_string_of_list_ascii. Qed.

Lemma length_chars s : length (Py.chars s) = Py.len s.
Proof. induction s as [|c s IH]; simpl; [reflexivity|]. f_equal. exact IH. Qed.

Lemma startswith_scale name :
  Py.startswith name "(.)" 0 = true ->
  exists rest, name = String "("%char (String "."%char (String ")"%char rest)).
Proof.
  unfold Py.startswith. rewrite drop_0, join_chars.
  intros H%prefix_correct.
  destruct name as [|a [|b [|c rest]]]; simpl in H; try discriminate.
  injection H as -> -> -> _. eexists. reflexivity.
Qed.

Lemma startswith_scale_not name rest :
  Py.startswith name "(.)" 0 = false ->
  name <> String "("%char (String "."%char (String ")"%char rest)).
Proof.
  intros H ->. unfold Py.startswith in H. rewrite drop_0, join_chars in H.
  rewrite (proj2 (prefix_correct "(.)" _)) in H by (destruct rest; reflexivity).
  discriminate.
Qed.

Lemma replace_scale_scale rest :
  replace_scale (String "("%char (String "."%char (String ")"%char rest))) =
    Ok ("(8\pi G/3)" +:+ rest).
Proof.
  unfold replace_scale, Py.pop, Py.insert_slice. simpl.
  rewrite join_chars. reflexivity.
Qed.

Lemma slice_from_scale rest :
  Py.slice_from (String "("%char (String "."%char (String ")"%char rest))) 3
  = rest.
Proof.
  unfold Py.slice_from, Py.clamp. simpl. apply join_chars.
Qed.

Lemma filter_fmap_S (P : nat -> Prop) `{!forall i, Decision (P i)} (l : list nat) :
  filter P (S <$> l) = S <$> filter (fun i => P (S i)) l.
Proof.
  induction l as [|x l IH]; [reflexivity|].
  rewrite fmap_cons, !filter_cons, IH.
  destruct (decide (P (S x))); reflexivity.
Qed.

Lemma occurrences_cons a s sub :
  Py.occurrences (String a s) sub =
    ((if String.prefix sub (String a s) then [0] else []) ++
     (S <$> Py.occurrences s sub))%list.
Proof.
  unfold Py.occurrences.
  change (Py.len (String a s)) with (S (Py.len s)).
  change (seq 0 (S (S (Py.len s)))) with (0 :: seq 1 (S (Py.len s))).
  rewrite filter_cons, <- fmap_S_seq, filter_fmap_S.
  assert (H0 : Py.startswith (String a s) sub 0 = String.prefix sub (String a s)).
  { unfold Py.startswith. rewrite drop_0, join_chars. reflexivity. }
  rewrite H0.
  destruct (String.prefix sub (String a s)); simpl; reflexivity.
Qed.

Lemma prefix_char c a s :
  String.prefix (String c "") (String a s) = true <-> a = c.
Proof.
  rewrite prefix_correct. simpl. destruct s; simpl; split; congruence.
Qed.

Lemma occurrences_char_nil c : Py.occurrences "" (String c "") = [].
Proof. reflexivity. Qed.

Lemma occurrences_char s c :
  match Py.occurrences s (String c "") with
  | i :: _ => c ∈ Py.chars s /\ take i (Py.chars s) = before c (Py.chars s)
  | [] => c ∉ Py.chars s
  end.
Proof.
  induction s as [|a s IH].
  - rewrite occurrences_char_nil. simpl. apply not_elem_of_nil.
  - rewrite occurrences_cons.
    change (Py.chars (String a s)) with (a :: Py.chars s).
    destruct (String.prefix (String c "") (String a s)) eqn:Hp.
    + apply prefix_char in Hp as ->. simpl.
      split; [apply list_elem_of_here|].
      destruct (decide (c = c)); [reflexivity|congruence].
    + assert (Hac : a <> c).
      { intros Heq. apply (prefix_char c a s) in Heq. congruence. }
      simpl. destruct (Py.occurrences s (String c "")) as [|i occ]; simpl.
      * intros [?|?]%elem_of_cons; [congruence|contradiction].
      * destruct IH as [Hin Htake]. split; [by apply list_elem_of_further|].
        destruct (decide (a = c)); [contradiction|]. by rewrite Htake.
Qed.

Lemma clamp_nat n i : Py.clamp n (Z.of_nat i) = Nat.min i n.
Proof.
  unfold Py.clamp. cbv zeta.
  rewrite !(proj2 (Z.ltb_ge (Z.of_nat i) 0)) by lia.
  by rewrite Nat2Z.id.
Qed.

Lemma slice_to_nat s i :
  Py.slice_to s (Z.of_nat i) = Py.join (take i (Py.chars s)).
Proof.
  unfold Py.slice_to. rewrite clamp_nat, <- length_chars.
  destruct (Nat.le_ge_cases i (length (Py.chars s))) as [Hle|Hge].
  - by rewrite Nat.min_l.
  - rewrite Nat.min_r by done. by rewrite !take_ge by lia.
Qed.

Lemma second_pass_step_spec names index name :
  names !! index = Some name ->
  second_pass_step names index name =
    Ok (<[index := strip_annotation name]> names).
Proof.
  intros Hname. unfold second_pass_step, strip_annotation, Py.find, Py.index.
  pose proof (occurrences_char name "(") as Hp.
  pose proof (occurrences_char name "[") as Hb.
  destruct (Py.occurrences name "(") as [|i ?].
  - rewrite bool_decide_eq_false_2 by done. simpl.
    destruct (Py.occurrences name "[") as [|j ?].
    + rewrite bool_decide_eq_false_2 by done. simpl.
      by rewrite list_insert_id.
    + destruct Hb as [Hin Htake].
      rewrite bool_decide_eq_true_2 by done.
      destruct (Z.eqb_spec (Z.of_nat j) (-1)) as [?|_]; [lia|]. simpl.
      unfold truncate_at. by rewrite slice_to_nat, Htake.
  - destruct Hp as [Hin Htake].
    rewrite bool_decide_eq_true_2 by done.
    destruct (Z.eqb_spec (Z.of_nat i) (-1)) as [?|_]; [lia|]. simpl.
    unfold truncate_at. by rewrite slice_to_nat, Htake.
Qed.

Lemma second_pass_spec fuel : forall index names,
  length names <= index + fuel ->
  second_pass fuel index names =
    Ok (take index names ++ (strip_annotation <$> drop index names)).
Proof.
  induction fuel as [|fuel IH]; intros index names Hlen; simpl.
  - rewrite drop_ge, take_ge by lia. by rewrite app_nil_r.
  - destruct (names !! index) as [name|] eqn:Hname.
    + rewrite (second_pass_step_spec _ _ _ Hname). simpl.
      rewrite IH by (rewrite length_insert; lia).
      apply lookup_lt_Some in Hname as Hlt.
      rewrite (take_S_r _ _ (strip_annotation name))
        by (by apply list_lookup_insert_eq).
      rewrite take_insert_ge, drop_insert_lt by lia.
      rewrite (drop_S _ _ _ Hname). simpl.
      by rewrite <- app_assoc.
    + apply lookup_ge_None in Hname.
      rewrite drop_ge, take_ge by lia. by rewrite app_nil_r.
Qed.

Lemma scale_cases name :
  (exists rest,
     name = String "("%char (String "."%char (String ")"%char rest))) \/
  (provisional_name name = name /\ display_name_of name = name).
Proof.
  destruct name as [|a s]; [by right|].
  destruct a as [[] [] [] [] [] [] [] []]; try by right.
  destruct s as [|b s]; [by right|].
  destruct b as [[] [] [] [] [] [] [] []]; try by right.
  destruct s as [|c s]; [by right|].
  destruct c as [[] [] [] [] [] [] [] []]; try by right.
  left. by eexists.
Qed.

Lemma first_pass_spec long_names : forall names tex_names,
  first_pass long_names names tex_names =
    Ok (names ++ (provisional_name <$> long_names),
        tex_names ++ (display_name_of <$> long_names)).
Proof.
  induction long_names as [|name rest IH]; intros names tex_names; simpl.
  - by rewrite !app_nil_r.
  - destruct (Py.startswith name "(.)" 0) eqn:Hs.
    + apply startswith_scale in Hs as [tail ->].
      rewrite replace_scale_scale, slice_from_scale. simpl.
      rewrite IH, <- !app_assoc. reflexivity.
    + rewrite IH, <- !app_assoc.
      destruct (scale_cases name) as [[tail ->]|[-> ->]]; [|reflexivity].
      by apply startswith_scale_not with (rest := tail) in Hs.
Qed.

Lemma process_long_names_spec long_names :
  process_long_names long_names =
    Ok (short_name_of <$> long_names, display_name_of <$> long_names).
Proof.
  unfold process_long_names. rewrite first_pass_spec.
  cbn [mbind result_bind app].
  rewrite second_pass_spec by lia.
  cbn [mbind result_bind mret result_ret].
  by rewrite take_0, drop_0, <- list_fmap_compose.
Qed.

(** ** Markers and long names *)

Lemma startswith_char s c i :
  Py.startswith s (String c "") i = true <-> Py.chars s !! i = Some c.
Proof.
  unfold Py.startswith.
  pose proof (lookup_drop (Py.chars s) i 0) as Hl.
  rewrite Nat.add_0_r in Hl. rewrite <- Hl.
  destruct (drop i (Py.chars s)) as [|a l].
  - simpl. split; discriminate.
  - change (Py.join (a :: l)) with (String a (Py.join l)).
    rewrite prefix_char. cbn [lookup list_lookup]. split; congruence.
Qed.

Lemma marker_indices_markers header :
  marker_indices header = (fun m => m + 1) <$> markers header.
Proof.
  unfold marker_indices, markers. f_equal.
  apply list_filter_iff. intros i. apply startswith_char.
Qed.

Lemma filter_seq_lookup (P : nat -> Prop) `{!forall i, Decision (P i)} n :
  forall s i m, filter P (seq s n) !! i = Some m -> s + i <= m < s + n.
Proof.
  induction n as [|n IH]; intros s i m; simpl; [done|].
  rewrite filter_cons. destruct (decide (P s)).
  - destruct i as [|i]; simpl.
    + intros [= <-]. lia.
    + intros Hm%IH. lia.
  - intros Hm%IH. lia.
Qed.

Lemma markers_bounds header i m :
  Py.chars header !! 0 = Some "#"%char ->
  markers header !! i = Some m ->
  i + 1 <= m < Py.len header.
Proof.
  intros Hhash. unfold markers.
  destruct (Py.len header) as [|n] eqn:Hlen.
  { rewrite <- length_chars in Hlen. by destruct (Py.chars header). }
  change (seq 0 (S n)) with (0 :: seq 1 n).
  rewrite filter_cons_False by (rewrite Hhash; intros [=]).
  intros Hm%filter_seq_lookup. lia.
Qed.

Lemma mapM_Ok {A B} (f : A -> result B) (g : A -> B) (l : list A) :
  (forall x, x ∈ l -> f x = Ok (g x)) -> mapM f l = Ok (g <$> l).
Proof.
  induction l as [|x l IH]; intros Hf; [reflexivity|].
  cbn [mapM]. rewrite (Hf x) by apply list_elem_of_here.
  cbn [mbind result_bind]. rewrite IH; [reflexivity|].
  intros y Hy. apply Hf. by apply list_elem_of_further.
Qed.

Lemma slice_between s m m' :
  m < Py.len s -> 2 <= m' < Py.len s ->
  Py.slice s (Z.of_nat (m + 1)) (Z.of_nat (m' + 1) - 3) =
    between s (Z.of_nat m + 1) (Z.of_nat m' - 3).
Proof.
  intros Hm Hm'. unfold Py.slice, between.
  replace (Z.of_nat (m' + 1) - 3)%Z with (Z.of_nat (m' - 2)) by lia.
  rewrite !clamp_nat, !Nat.min_l by lia.
  do 2 f_equal; [lia|]. f_equal. lia.
Qed.

Lemma slice_from_offset s a :
  a <= Py.len s -> Py.slice_from s (Z.of_nat a) = from_offset s a.
Proof.
  intros Ha. unfold Py.slice_from, from_offset.
  by rewrite clamp_nat, Nat.min_l.
Qed.

Lemma long_name_column header i t :
  Py.chars header !! 0 = Some "#"%char ->
  column_text header i = Some t ->
  long_name header (marker_indices header)
            (length (marker_indices header)) i = Ok t.
Proof.
  intros Hhash. unfold column_text.
  destruct (markers header !! i) as [m|] eqn:Hm; [|discriminate].
  cbn [mbind option_bind]. intros [= <-].
  rewrite marker_indices_markers, length_fmap.
  unfold long_name, Py.item. rewrite !list_lookup_fmap, Hm.
  pose proof (markers_bounds _ _ _ Hhash Hm) as Hb.
  destruct (markers header !! (i + 1)) as [m'|] eqn:Hm'.
  - pose proof (markers_bounds _ _ _ Hhash Hm') as Hb'.
    apply lookup_lt_Some in Hm'.
    rewrite (proj2 (Z.ltb_lt _ _)) by lia.
    cbn [fmap option_fmap option_map mbind result_bind mret result_ret].
    by rewrite slice_between by lia.
  - apply lookup_ge_None in Hm'.
    rewrite (proj2 (Z.ltb_ge _ _)) by lia.
    cbn [fmap option_fmap option_map mbind result_bind mret result_ret].
    by rewrite slice_from_offset by lia.
Qed.

Lemma split_header_columns header :
  Py.chars header !! 0 = Some "#"%char ->
  exists long_names,
    split_header header = Ok (length (markers header), long_names) /\
    forall i, long_names !! i = column_text header i.
Proof.
  intros Hhash.
  set (g := fun i => default "" (column_text header i)).
  exists (g <$> seq 0 (length (markers header))).
  assert (Hcol : forall i, i < length (markers header) ->
                   column_text header i = Some (g i)).
  { intros i [m Hm]%lookup_lt_is_Some. unfold g, column_text.
    by rewrite Hm. }
  split.
  - unfold split_header. cbv zeta.
    rewrite (mapM_Ok _ g).
    + rewrite marker_indices_markers, length_fmap. reflexivity.
    + intros i [_ Hi]%elem_of_seq. apply long_name_column; [done|].
      apply Hcol. rewrite marker_indices_markers, length_fmap in Hi. lia.
  - intros i. rewrite list_lookup_fmap.
    destruct (decide (i < length (markers header))) as [Hi|Hi].
    + rewrite lookup_seq_lt by done. simpl. by rewrite Hcol.
    + rewrite lookup_seq_ge by lia. unfold column_text.
      by rewrite (proj2 (lookup_ge_None (markers header) i)) by lia.
Qed.

Lemma decode_header_columns header :
  Py.chars header !! 0 = Some "#"%char ->
  exists long_names,
    split_header header = Ok (length (markers header), long_names) /\
    decode_header header =
      Ok (length (markers header),
          short_name_of <$> long_names, display_name_of <$> long_names) /\
    length long_names = length (markers header) /\
    forall i, long_names !! i = column_text header i.
Proof.
  intros Hhash.
  destruct (split_header_columns header Hhash) as (long_names & Hs & Hl).
  exists long_names. split; [done|]. split; [|split; [|done]].
  - unfold decode_header. rewrite Hs. cbn [mbind result_bind].
    by rewrite process_long_names_spec.
  - apply Nat.le_antisymm.
    + apply Nat.nlt_ge. intros Hlt.
      destruct (lookup_lt_is_Some_2 long_names (length (markers header)))
        as [t Ht]; [lia|].
      rewrite Hl in Ht. unfold column_text in Ht.
      rewrite (proj2 (lookup_ge_None (markers header) (length (markers header))))
        in Ht by lia.
      discriminate Ht.
    + apply Nat.nlt_ge. intros Hlt.
      destruct (lookup_lt_is_Some_2 (markers header) (length long_names))
        as [m Hm]; [lia|].
      pose proof (Hl (length long_names)) as Hn.
      rewrite (proj2 (lookup_ge_None long_names (length long_names)))
        in Hn by lia.
      unfold column_text in Hn. rewrite Hm in Hn. discriminate Hn.
Qed.

(** ** Files and their header line *)

Lemma join_first_char l : l <> [] -> is_Some (Py.chars (Py.join l) !! 0).
Proof. rewrite chars_join. destruct l; [done|]. intros _. by eexists. Qed.

Lemma lines_go_first_char l : forall cur,
  Forall (fun line => is_Some (Py.chars line !! 0)) (Py.lines_go cur l).
Proof.
  induction l as [|c l IH]; intros cur; simpl.
  - destruct cur as [|x cur]; [constructor|].
    constructor; [|constructor]. apply join_first_char.
    simpl. intros [_ ?]%app_eq_nil. discriminate.
  - destruct (decide (c = Py.newline)); [|apply IH].
    constructor; [|apply IH]. apply join_first_char.
    simpl. intros [_ ?]%app_eq_nil. discriminate.
Qed.

Lemma lines_first_char text :
  Forall (fun line => is_Some (Py.chars line !! 0)) (Py.lines text).
Proof. apply lines_go_first_char. Qed.

Lemma comment_lines_filter ls :
  Forall (fun line => is_Some (Py.chars line !! 0)) ls ->
  comment_lines ls =
    Ok (filter (fun line => Py.chars line !! 0 = Some "#"%char) ls).
Proof.
  induction 1 as [|line ls [c Hc] _ IH]; [reflexivity|].
  cbn [comment_lines]. unfold Py.item. rewrite Hc, IH.
  cbn [mbind result_bind mret result_ret]. rewrite filter_cons, Hc.
  destruct (decide (c = "#"%char)) as [->|Hne].
  - by rewrite decide_True.
  - by rewrite decide_False by congruence.
Qed.

Lemma header_line_spec text :
  header_line text =
    Py.last_item
      (filter (fun line => Py.chars line !! 0 = Some "#"%char) (Py.lines text)).
Proof.
  unfold header_line.
  by rewrite (comment_lines_filter _ (lines_first_char text)).
Qed.

Lemma header_line_hash text header :
  header_line text = Ok header -> Py.chars header !! 0 = Some "#"%char.
Proof.
  rewrite header_line_spec. unfold Py.last_item.
  destruct (last _) as [h|] eqn:Hlast; [|discriminate].
  intros [= ->]. apply last_Some_elem_of in Hlast.
  by apply list_elem_of_filter in Hlast as [? _].
Qed.

Lemma extract_headers_inv fs path n names tex_names :
  extract_headers fs path = Ok (n, names, tex_names) ->
  exists text header long_names,
    fs !! path = Some text /\ header_line text = Ok header /\
    n = length (markers header) /\ length long_names = n /\
    names = short_name_of <$> long_names /\
    tex_names = display_name_of <$> long_names.
Proof.
  unfold extract_headers, read_file.
  destruct (fs !! path) as [text|]; [|discriminate].
  cbn [mbind result_bind].
  destruct (header_line text) as [header|] eqn:Hh; [|discriminate].
  cbn [mbind result_bind].
  destruct (decode_header_columns header (header_line_hash _ _ Hh))
    as (long_names & _ & -> & Hlen & _).
  intros [= <- <- <-]. by exists text, header, long_names.
Qed.

Lemma extract_headers_length fs path n names tex_names :
  extract_headers fs path = Ok (n, names, tex_names) ->
  length names = n /\ length tex_names = n.
Proof.
  intros (_ & _ & long_names & _ & _ & _ & <- & -> & ->)%extract_headers_inv.
  by rewrite !length_fmap.
Qed.

(** ** Where an [InputError] can come from *)

Lemma no_InputError_Ok {A} (a : A) : no_InputError (Ok a).
Proof. intros msg. discriminate. Qed.

Lemma no_InputError_bind {A B} (m : result A) (f : A -> result B) :
  no_InputError m -> (forall a, no_InputError (f a)) -> no_InputError (m ≫= f).
Proof.
  intros Hm Hf msg. destruct m as [a|e]; cbn [mbind result_bind].
  - apply Hf.
  - intros [= ->]. by apply (Hm msg).
Qed.

Lemma no_InputError_fmap {A B} (m : result A) (f : A -> B) :
  no_InputError m -> no_InputError (f <$> m).
Proof.
  intros Hm msg. destruct m as [a|e]; cbn [fmap result_fmap]; [discriminate|].
  intros [= ->]. by apply (Hm msg).
Qed.

Lemma no_InputError_mapM {A B} (f : A -> result B) (l : list A) :
  (forall x, no_InputError (f x)) -> no_InputError (mapM f l).
Proof.
  intros Hf. induction l as [|x l IH]; [apply no_InputError_Ok|].
  cbn [mapM]. apply no_InputError_bind; [apply Hf|]. intros y.
  apply no_InputError_bind; [apply IH|]. intros k. apply no_InputError_Ok.
Qed.

Lemma no_InputError_item {A} (l : list A) i : no_InputError (Py.item l i).
Proof. intros msg. unfold Py.item. by destruct (l !! i). Qed.

Lemma no_InputError_last_item {A} (l : list A) : no_InputError (Py.last_item l).
Proof. intros msg. unfold Py.last_item. by destruct (last l). Qed.

Lemma no_InputError_list_index l x : no_InputError (Py.list_index l x).
Proof.
  induction l as [|y l IH]; simpl; [by intros msg|].
  destruct (decide (y = x)); [apply no_InputError_Ok|].
  by apply no_InputError_fmap.
Qed.

Lemma no_InputError_read_file fs path : no_InputError (read_file fs path).
Proof. intros msg. unfold read_file. by destruct (fs !! path). Qed.

Create HintDb input_error discriminated.
#[local] Hint Resolve no_InputError_Ok no_InputError_item
  no_InputError_last_item no_InputError_list_index no_InputError_read_file
  no_InputError_fmap : input_error.

(** Walks down a chain of binds, closing each link with the facts above. *)
Ltac no_input_error :=
  repeat first
    [ progress auto with input_error
    | apply no_InputError_bind; [|intros ?]
    | apply no_InputError_mapM; intros ? ].

Lemma no_InputError_header_line text : no_InputError (header_line text).
Proof. rewrite header_line_spec. apply no_InputError_last_item. Qed.

Lemma no_InputError_extract_headers fs path :
  no_InputError (extract_headers fs path).
Proof.
  unfold extract_headers.
  apply no_InputError_bind; [apply no_InputError_read_file|]. intros text.
  destruct (header_line text) as [header|e] eqn:Hh.
  - cbn [mbind result_bind].
    destruct (decode_header_columns header (header_line_hash _ _ Hh))
      as (long_names & _ & -> & _). apply no_InputError_Ok.
  - pose proof (no_InputError_header_line text) as Hn. rewrite Hh in Hn.
    intros msg [= ->]. by apply (Hn msg).
Qed.

Lemma split_go_nonempty sep l : forall cur, split_go sep cur l <> [].
Proof.
  induction l as [|c l IH]; intros cur; simpl; [done|].
  destruct (decide (c = sep)); [done|apply IH].
Qed.

Lemma root_of_total elem : is_Ok (root_of elem).
Proof.
  unfold root_of, Py.last_item, Py.item, split.
  destruct (last _) as [base|] eqn:Hl.
  - cbn [mbind result_bind].
    destruct (split_go "." [] (Py.chars base)) as [|r l] eqn:Hs.
    + by apply split_go_nonempty in Hs.
    + by exists r.
  - apply last_None in Hl. by apply split_go_nonempty in Hl.
Qed.

Lemma mapM_total {A B} (f : A -> result B) (l : list A) :
  (forall x, is_Ok (f x)) -> is_Ok (mapM f l).
Proof.
  intros Hf. induction l as [|x l [k IH]]; [by exists []|].
  destruct (Hf x) as [y Hy]. exists (y :: k).
  cbn [mapM]. rewrite Hy. cbn [mbind result_bind]. by rewrite IH.
Qed.

(** ** The selection check *)

Lemma string_app_assoc (s1 s2 s3 : string) :
  (s1 +:+ s2) +:+ s3 = s1 +:+ (s2 +:+ s3).
Proof.
  induction s1 as [|c s1 IH]; [reflexivity|].
  change ((String c s1 +:+ s2) +:+ s3) with (String c ((s1 +:+ s2) +:+ s3)).
  by rewrite IH.
Qed.

Lemma validate_selection_present names items :
  Forall (fun elem => elem ∈ names) items ->
  validate_selection names items = Ok tt.
Proof.
  induction 1 as [|elem items Hin _ IH]; [reflexivity|].
  cbn [validate_selection]. by rewrite bool_decide_eq_true_2.
Qed.

Lemma validate_selection_absent names pre elem post :
  Forall (fun e => e ∈ names) pre -> elem ∉ names ->
  validate_selection names (pre ++ elem :: post) =
    Raise (InputError (unknown_field elem names)).
Proof.
  intros Hpre Hout. induction Hpre as [|e pre Hin _ IH].
  - cbn [app validate_selection]. rewrite bool_decide_eq_false_2 by done.
    cbn [negb]. do 2 f_equal. unfold unknown_field.
    rewrite !string_app_assoc. reflexivity.
  - cbn [app validate_selection]. by rewrite bool_decide_eq_true_2.
Qed.

Lemma check_selection_two names sel :
  length names = 2 ->
  exists name0 name1,
    names = [name0; name1] /\
    check_selection 2 names sel = Ok (SelList [name1]).
Proof.
  intros Hlen. destruct names as [|name0 [|name1 [|? ?]]]; try discriminate.
  by exists name0, name1.
Qed.

Lemma check_selection_few num_columns names sel :
  num_columns < 2 -> check_selection num_columns names sel = Ok sel.
Proof.
  intros Hn. unfold check_selection.
  rewrite decide_False by lia. by rewrite decide_False by lia.
Qed.

Lemma check_selection_many num_columns names sel :
  2 < num_columns ->
  check_selection num_columns names sel =
    validate_selection names (requested sel) ≫=
      fun _ => Ok (SelList (requested sel)).
Proof.
  intros Hn. unfold check_selection.
  rewrite decide_False by lia. rewrite decide_True by lia.
  by destruct sel.
Qed.

(** ** From the selection check to the figure *)

Section PlotFacts.

Context {data : Type} (parse : string -> option data).

Lemma no_InputError_loadtxt fs path : no_InputError (loadtxt parse fs path).
Proof.
  unfold loadtxt.
  apply no_InputError_bind; [apply no_InputError_read_file|]. intros text.
  intros msg. by destruct (parse text).
Qed.

Lemma no_InputError_plot_curves fs files sel scale idx :
  no_InputError (plot_curves fs files sel scale idx).
Proof.
  unfold plot_curves.
  apply no_InputError_bind; [apply no_InputError_item|]. intros file.
  apply no_InputError_bind; [apply no_InputError_extract_headers|].
  intros [[n curve_names] tex]. no_input_error.
Qed.

(** Once the first file is decoded, the selection check alone decides
    which selection [plot_CLASS_output] plots and whether it raises an
    [InputError]. *)
Lemma plot_CLASS_output_check fs file0 rest sel ratio scale
    n names tex_names :
  extract_headers fs file0 = Ok (n, names, tex_names) ->
  (forall sel', check_selection n names sel = Ok sel' ->
     no_InputError
       (plot_CLASS_output parse fs (file0 :: rest) sel ratio scale) /\
     forall fig,
       plot_CLASS_output parse fs (file0 :: rest) sel ratio scale = Ok fig ->
       fig_selection fig = sel') /\
  (forall e, check_selection n names sel = Raise e ->
     is_Ok (mapM (loadtxt parse fs) (file0 :: rest)) ->
     plot_CLASS_output parse fs (file0 :: rest) sel ratio scale = Raise e).
Proof.
  intros Hh. unfold plot_CLASS_output.
  destruct (mapM (loadtxt parse fs) (file0 :: rest)) as [tables|e0] eqn:Hd.
  2:{ pose proof (no_InputError_mapM (loadtxt parse fs) (file0 :: rest)
                    (no_InputError_loadtxt fs)) as Hn.
      rewrite Hd in Hn. cbn [mbind result_bind]. split.
      - intros sel' _. split; [|discriminate].
        intros msg [= ->]. by apply (Hn msg).
      - intros e _ [? [=]]. }
  destruct (mapM_total root_of (file0 :: rest) root_of_total) as [roots Hr].
  cbn [mbind result_bind Py.item lookup list_lookup]. rewrite Hr.
  cbn [mbind result_bind]. rewrite Hh. cbn [mbind result_bind].
  split.
  - intros sel' ->. cbn [mbind result_bind]. destruct ratio; cbn [negb].
    + split.
      * apply no_InputError_bind; [apply no_InputError_item|].
        intros ref. apply no_InputError_Ok.
      * intros fig. destruct (Py.item tables 0); [|discriminate].
        cbn [mbind result_bind mret result_ret]. by intros [= <-].
    + split.
      * apply no_InputError_bind;
          [apply no_InputError_mapM, no_InputError_plot_curves|].
        intros curves. apply no_InputError_Ok.
      * intros fig. destruct (mapM _ (seq 0 (length tables)));
          [|discriminate].
        cbn [mbind result_bind mret result_ret]. by intros [= <-].
  - intros e -> _. reflexivity.
Qed.

End PlotFacts.

(** * The claims *)

(** ** The command line driver *)

Section Main.

Context {data : Type} (parse : string -> option data).

Lemma main_no_files fs a :
  args_files a = [] -> main parse fs a = Ok PrintUsage.
Proof. intros Hf. unfold main. rewrite Hf. reflexivity. Qed.

Lemma main_ratio_some_file fs a :
  args_ratio a = true -> args_files a <> [] ->
  main parse fs a = Raise (InputError "Sorry, this is not working yet").
Proof.
  intros Hr Hf. unfold main.
  destruct (args_files a) as [|f files]; [congruence|].
  rewrite Hr. reflexivity.
Qed.

End Main.

(** C1, as the code has it: in ratio mode the number of files does not
    decide the error. With at least one file, be it one or several,
    [main] raises [InputError] ("not working yet"); with no file it
    prints the usage and returns. [NumberOfFilesError] is never raised,
    and nothing is ever rendered. *)
Theorem main_ratio_unimplemented {data : Type} (parse : string -> option data)
    (fs : file_system) (a : args) :
  args_ratio a = true ->
  (args_files a = [] -> main parse fs a = Ok PrintUsage) /\
  (args_files a <> [] ->
     main parse fs a = Raise (InputError "Sorry, this is not working yet")) /\
  (forall msg, main parse fs a <> Raise (NumberOfFilesError msg)) /\
  (forall fig, main parse fs a <> Ok (Rendered fig)).
Proof.
  intros Hr.
  split; [apply main_no_files|].
  split; [apply main_ratio_some_file; exact Hr|].
  destruct (args_files a) as [|f files] eqn:Hf.
  - rewrite (main_no_files parse fs a Hf). split; intros; discriminate.
  - assert (Hne : args_files a <> []) by (rewrite Hf; discriminate).
    rewrite (main_ratio_some_file parse fs a Hr Hne).
    split; intros; discriminate.
Qed.

Lemma main_ratio_unimplemented_witness :
  let a := Args ["output/bg.dat"; "output/test_pk.dat"] true None None in
  args_ratio a = true /\
  main any_table disk a = Raise (InputError "Sorry, this is not working yet").
Proof.
  split; [reflexivity|].
  apply (main_ratio_unimplemented any_table disk
           (Args ["output/bg.dat"; "output/test_pk.dat"] true None None)).
  - reflexivity.
  - simpl. discriminate.
Defined.

(** C1, as stated, fails: ratio mode with a single file (fewer than two)
    raises [InputError], not [NumberOfFilesError]. *)
Lemma main_ratio_one_file_counterexample :
  let a := Args ["output/bg.dat"] true None None in
  args_ratio a = true /\ length (args_files a) < 2 /\
  main any_table disk a = Raise (InputError "Sorry, this is not working yet") /\
  ~ (exists msg, main any_table disk a = Raise (NumberOfFilesError msg)).
Proof.
  simpl. split; [reflexivity|]. split; [lia|]. split; [reflexivity|].
  intros [msg H]. discriminate H.
Qed.

(** ** The name normalizer on given names *)

(** C8: the long name [(.)rho_crit] has the short name [rho_crit] and the
    display name [(8\pi G/3)rho_crit]; [replace_scale] alone makes the
    display name. *)
Theorem process_long_names_scale_macro :
  replace_scale "(.)rho_crit" = Ok "(8\pi G/3)rho_crit" /\
  process_long_names ["(.)rho_crit"] =
    Ok (["rho_crit"], ["(8\pi G/3)rho_crit"]).
Proof. split; vm_compute; reflexivity. Qed.

(** C5, on the code: the short name of [proper time [Gyr]] keeps the space
    that precedes the bracket; the display name is the long name. The
    example in the docstring of [process_long_names] gives
    ['proper time'], without that space. *)
Theorem process_long_names_keeps_trailing_space :
  process_long_names ["proper time [Gyr]"] =
    Ok (["proper time "], ["proper time [Gyr]"]) /\
  process_long_names ["(.)toto"; "proper time [Gyr]"] <>
    Ok (["toto"; "proper time"], ["(8\pi G/3)toto"; "proper time [Gyr]"]).
Proof. split; vm_compute; [reflexivity | discriminate]. Qed.

(** C4, on the code: the header [#1:x  2:(.)rho  3:P [Mpc^-3]] decodes to
    the short names [x], [rho] and [P ] (with the space left before the
    bracket), and plotting the selection [rho] draws column 1 of that
    file. *)
Theorem extract_headers_three_columns :
  extract_headers disk "output/bg.dat" =
    Ok (3, ["x"; "rho"; "P "], ["x"; "(8\pi G/3)rho"; "P [Mpc^-3]"]) /\
  Py.list_index ["x"; "rho"; "P "] "rho" = Ok 1 /\
  fig_curves <$>
    plot_CLASS_output any_table disk ["output/bg.dat"] (SelList ["rho"])
      false "lin" = Ok [Curve 0 1 AxPlot].
Proof. repeat split; vm_compute; reflexivity. Qed.

(** ** The header decoder *)

(** C2, as the code has it: on the text of a file none of whose lines
    starts with ['#'], [extract_headers] fails with the built-in
    [IndexError] of taking the last item of an empty list; no
    [FormatError] is raised. *)
Theorem extract_headers_no_comment_line (fs : file_system)
    (path text : string) :
  fs !! path = Some text ->
  Forall (fun line => Py.chars line !! 0 <> Some "#"%char) (Py.lines text) ->
  header_line text = Raise IndexError /\
  extract_headers fs path = Raise IndexError.
Proof.
  intros Hfile Hlines.
  assert (Hh : header_line text = Raise IndexError).
  { rewrite header_line_spec.
    induction Hlines as [|line ls Hline _ IH]; [reflexivity|].
    by rewrite filter_cons_False. }
  split; [exact Hh|].
  unfold extract_headers, read_file. rewrite Hfile.
  cbn [mbind result_bind]. by rewrite Hh.
Qed.

Lemma extract_headers_no_comment_line_witness :
  disk !! "output/raw.dat" = Some no_header /\
  extract_headers disk "output/raw.dat" = Raise IndexError.
Proof.
  split; [reflexivity|].
  apply (extract_headers_no_comment_line disk "output/raw.dat" no_header).
  - reflexivity.
  - vm_compute. repeat constructor; discriminate.
Defined.

(** C2, as stated, fails: a file of two data lines has no line starting
    with ['#'], and [extract_headers] does not raise [FormatError] on it. *)
Lemma extract_headers_no_FormatError_counterexample :
  Forall (fun line => Py.chars line !! 0 <> Some "#"%char)
         (Py.lines no_header) /\
  extract_headers disk "output/raw.dat" = Raise IndexError /\
  ~ (exists msg, extract_headers disk "output/raw.dat" = Raise (FormatError msg)).
Proof.
  split; [vm_compute; repeat constructor; discriminate|].
  split; [reflexivity|].
  intros [msg H]. vm_compute in H. discriminate H.
Qed.

(** C3: a header line with N markers [':'] decodes to N columns, in the
    order of the markers. The long name of a column that is not the last
    is the trimmed text at the offsets marker+1 to (next marker)-3; the
    long name of the last column is the trimmed text that follows its
    marker up to the end of the line. The short and display names are the
    normalized long names, column by column. *)
Theorem decode_header_long_names (header : string) :
  Py.chars header !! 0 = Some "#"%char ->
  exists long_names,
    split_header header = Ok (length (markers header), long_names) /\
    decode_header header =
      Ok (length (markers header),
          short_name_of <$> long_names, display_name_of <$> long_names) /\
    length long_names = length (markers header) /\
    (forall i m m',
       markers header !! i = Some m -> markers header !! (i + 1) = Some m' ->
       long_names !! i =
         Some (Py.strip (between header (Z.of_nat m + 1) (Z.of_nat m' - 3)))) /\
    (forall i m,
       markers header !! i = Some m -> markers header !! (i + 1) = None ->
       long_names !! i = Some (Py.strip (from_offset header (m + 1)))).
Proof.
  intros Hhash.
  destruct (decode_header_columns header Hhash)
    as (long_names & Hs & Hd & Hlen & Hcol).
  exists long_names. repeat split; try done.
  - intros i m m' Hm Hm'. rewrite Hcol. unfold column_text.
    rewrite Hm, Hm'. reflexivity.
  - intros i m Hm Hm'. rewrite Hcol. unfold column_text.
    rewrite Hm, Hm'. reflexivity.
Qed.

Lemma decode_header_long_names_witness :
  Py.chars "#1:x  2:(.)rho  3:P [Mpc^-3]" !! 0 = Some "#"%char /\
  exists long_names,
    split_header "#1:x  2:(.)rho  3:P [Mpc^-3]" = Ok (3, long_names) /\
    length long_names = 3.
Proof.
  split; [reflexivity|].
  destruct (decode_header_long_names "#1:x  2:(.)rho  3:P [Mpc^-3]" eq_refl)
    as (long_names & Hs & _ & Hlen & _).
  exists long_names. split; [exact Hs | exact Hlen].
Defined.

(** ** The name normalizer on every input *)

(** C9: [process_long_names] always returns, and its two lists have the
    length of its input; the short name and the display name at an offset
    are functions of the long name at that offset alone. *)
Theorem process_long_names_aligned (long_names : list string) :
  exists names tex_names,
    process_long_names long_names = Ok (names, tex_names) /\
    length names = length long_names /\
    length tex_names = length long_names /\
    forall i,
      names !! i = short_name_of <$> long_names !! i /\
      tex_names !! i = display_name_of <$> long_names !! i.
Proof.
  exists (short_name_of <$> long_names), (display_name_of <$> long_names).
  split; [apply process_long_names_spec|].
  rewrite !length_fmap. repeat split; apply list_lookup_fmap.
Qed.

(** ** The selection check *)

(** C6: when the first file decodes to exactly two columns, the selection
    becomes the one-element list of the short name of the second column,
    whatever selection was passed; [plot_CLASS_output] raises no
    [InputError] and plots that selection. *)
Theorem two_columns_force_selection {data : Type}
    (parse : string -> option data) (fs : file_system)
    (file0 : string) (rest : list string) (sel : selection)
    (ratio : bool) (scale : string) (names tex_names : list string) :
  extract_headers fs file0 = Ok (2, names, tex_names) ->
  exists name0 name1,
    names = [name0; name1] /\
    check_selection 2 names sel = Ok (SelList [name1]) /\
    no_InputError (plot_CLASS_output parse fs (file0 :: rest) sel ratio scale) /\
    forall fig,
      plot_CLASS_output parse fs (file0 :: rest) sel ratio scale = Ok fig ->
      fig_selection fig = SelList [name1].
Proof.
  intros Hh.
  destruct (extract_headers_length _ _ _ _ _ Hh) as [Hlen _].
  destruct (check_selection_two names sel Hlen) as (name0 & name1 & -> & Hc).
  exists name0, name1. split; [done|]. split; [done|].
  by apply (plot_CLASS_output_check parse fs file0 rest sel ratio scale
              _ _ _ Hh).
Qed.

Lemma two_columns_force_selection_witness :
  extract_headers disk "output/test_pk.dat" =
    Ok (2, ["k "; "P "], ["k (h/Mpc)"; "P (Mpc/h)^3"]) /\
  check_selection 2 ["k "; "P "] (SelList ["TT"; "EE"]) = Ok (SelList ["P "]).
Proof.
  split; [reflexivity|].
  destruct (two_columns_force_selection any_table disk "output/test_pk.dat" []
              (SelList ["TT"; "EE"]) false "lin" ["k "; "P "]
              ["k (h/Mpc)"; "P (Mpc/h)^3"] eq_refl)
    as (name0 & name1 & Hn & Hc & _).
  injection Hn as _ <-. exact Hc.
Defined.

(** C7: when the first file decodes to more than two columns, the
    selection (a string counting as a one-element sequence) is checked
    against the short names of that file. The first requested name that is
    not among them raises an [InputError] whose message contains that
    name; when every requested name is among them the check returns the
    requested list and [plot_CLASS_output] raises no [InputError]. *)
Theorem many_columns_validate_selection {data : Type}
    (parse : string -> option data) (fs : file_system)
    (file0 : string) (rest : list string) (sel : selection)
    (ratio : bool) (scale : string)
    (n : nat) (names tex_names : list string) :
  extract_headers fs file0 = Ok (n, names, tex_names) ->
  2 < n ->
  (forall pre elem post,
     requested sel = pre ++ elem :: post ->
     Forall (fun e => e ∈ names) pre -> elem ∉ names ->
     (exists prefix suffix,
        unknown_field elem names = prefix +:+ elem +:+ suffix) /\
     check_selection n names sel =
       Raise (InputError (unknown_field elem names)) /\
     (is_Ok (mapM (loadtxt parse fs) (file0 :: rest)) ->
      plot_CLASS_output parse fs (file0 :: rest) sel ratio scale =
        Raise (InputError (unknown_field elem names)))) /\
  (Forall (fun e => e ∈ names) (requested sel) ->
     check_selection n names sel = Ok (SelList (requested sel)) /\
     no_InputError
       (plot_CLASS_output parse fs (file0 :: rest) sel ratio scale) /\
     forall fig,
       plot_CLASS_output parse fs (file0 :: rest) sel ratio scale = Ok fig ->
       fig_selection fig = SelList (requested sel)).
Proof.
  intros Hh Hn.
  pose proof (plot_CLASS_output_check parse fs file0 rest sel ratio scale
                _ _ _ Hh) as [Hok Hraise].
  split.
  - intros pre elem post Hreq Hpre Hout.
    assert (Hc : check_selection n names sel =
                 Raise (InputError (unknown_field elem names))).
    { rewrite check_selection_many by done.
      by rewrite Hreq, validate_selection_absent. }
    split; [by eexists _, _|]. split; [exact Hc|].
    intros Hload. by apply Hraise.
  - intros Hall.
    assert (Hc : check_selection n names sel = Ok (SelList (requested sel))).
    { rewrite check_selection_many by done.
      by rewrite validate_selection_present. }
    split; [exact Hc|]. by apply Hok.
Qed.

Lemma many_columns_validate_selection_witness :
  extract_headers disk "output/bg.dat" =
    Ok (3, ["x"; "rho"; "P "], ["x"; "(8\pi G/3)rho"; "P [Mpc^-3]"]) /\
  2 < 3 /\
  check_selection 3 ["x"; "rho"; "P "] (SelList ["rho"; "TT"]) =
    Raise (InputError (unknown_field "TT" ["x"; "rho"; "P "])) /\
  check_selection 3 ["x"; "rho"; "P "] (SelStr "rho") = Ok (SelList ["rho"]).
Proof.
  pose proof (many_columns_validate_selection any_table disk "output/bg.dat"
                [] (SelList ["rho"; "TT"]) false "lin" 3 ["x"; "rho"; "P "]
                ["x"; "(8\pi G/3)rho"; "P [Mpc^-3]"] eq_refl ltac:(lia))
    as [Habsent _].
  pose proof (many_columns_validate_selection any_table disk "output/bg.dat"
                [] (SelStr "rho") false "lin" 3 ["x"; "rho"; "P "]
                ["x"; "(8\pi G/3)rho"; "P [Mpc^-3]"] eq_refl ltac:(lia))
    as [_ Hpresent].
  split; [reflexivity|]. split; [lia|]. split.
  - destruct (Habsent ["rho"] "TT" [] eq_refl) as (_ & Hc & _).
    + repeat constructor.
    + apply (bool_decide_eq_false_1 _). reflexivity.
    + exact Hc.
  - destruct Hpresent as [Hc _]; [repeat constructor | exact Hc].
Defined.

(** C10: when the first file decodes to fewer than two columns, the
    selection goes through the check untouched: it is not replaced, a
    string is not turned into a list, and no name in it can raise an
    [InputError]. *)
Theorem few_columns_selection_untouched {data : Type}
    (parse : string -> option data) (fs : file_system)
    (file0 : string) (rest : list string) (sel : selection)
    (ratio : bool) (scale : string)
    (n : nat) (names tex_names : list string) :
  extract_headers fs file0 = Ok (n, names, tex_names) ->
  n < 2 ->
  check_selection n names sel = Ok sel /\
  no_InputError (plot_CLASS_output parse fs (file0 :: rest) sel ratio scale) /\
  forall fig,
    plot_CLASS_output parse fs (file0 :: rest) sel ratio scale = Ok fig ->
    fig_selection fig = sel.
Proof.
  intros Hh Hn.
  pose proof (check_selection_few n names sel Hn) as Hc.
  split; [exact Hc|].
  by apply (plot_CLASS_output_check parse fs file0 rest sel ratio scale
              _ _ _ Hh).
Qed.

Lemma few_columns_selection_untouched_witness :
  extract_headers disk "output/plain.dat" = Ok (0, [], []) /\
  0 < 2 /\
  check_selection 0 [] (SelStr "TT") = Ok (SelStr "TT").
Proof.
  split; [reflexivity|]. split; [lia|].
  apply (few_columns_selection_untouched any_table disk "output/plain.dat" []
           (SelStr "TT") false "lin" 0 [] [] eq_refl ltac:(lia)).
Defined.

(** * Further properties *)

(** ** The name normalizer *)

(** X1: [replace_scale] does not look at what it replaces. On any string
    of two characters or more it keeps the first, drops the second and
    inserts the expanded scale after the first; on a shorter string the
    [pop(1)] raises [IndexError]. *)
Theorem replace_scale_any_string (s : string) :
  match s with
  | String c0 (String c1 rest) =>
      replace_scale s = Ok (String c0 ("8\pi G/3" +:+ rest))
  | _ => replace_scale s = Raise IndexError
  end.
Proof.
  destruct s as [|c0 [|c1 rest]]; try reflexivity.
  unfold replace_scale, Py.pop, Py.insert_slice. simpl.
  by rewrite drop_0, join_chars.
Qed.

Lemma before_subseteq c l x : x ∈ before c l -> x ∈ l.
Proof.
  induction l as [|y l IH]; simpl; [done|].
  destruct (decide (y = c)); [by (intros ?%elem_of_nil)|].
  intros [->|?]%elem_of_cons; [apply list_elem_of_here|].
  apply list_elem_of_further. by apply IH.
Qed.

Lemma before_not_elem c l : c ∉ before c l.
Proof.
  induction l as [|y l IH]; simpl; [apply not_elem_of_nil|].
  destruct (decide (y = c)); [apply not_elem_of_nil|].
  intros [?|?]%elem_of_cons; [congruence|contradiction].
Qed.

Lemma before_prefix c l : exists rest, l = before c l ++ rest.
Proof.
  induction l as [|y l [rest IH]]; simpl; [by exists []|].
  destruct (decide (y = c)); [by eexists|].
  exists rest. simpl. by f_equal.
Qed.

Lemma strip_annotation_chars name :
  ("("%char ∉ Py.chars (strip_annotation name)) /\
  ("("%char ∉ Py.chars name -> "["%char ∉ Py.chars (strip_annotation name)) /\
  exists rest, Py.chars name = Py.chars (strip_annotation name) ++ rest.
Proof.
  unfold strip_annotation, truncate_at.
  destruct (decide ("("%char ∈ Py.chars name)) as [Hp|Hp].
  - rewrite bool_decide_eq_true_2 by done. rewrite chars_join.
    split; [apply before_not_elem|]. split; [done|apply before_prefix].
  - rewrite bool_decide_eq_false_2 by done.
    destruct (decide ("["%char ∈ Py.chars name)) as [Hb|Hb].
    + rewrite bool_decide_eq_true_2 by done. rewrite chars_join.
      split; [by (intros ?%before_subseteq)|].
      split; [intros _; apply before_not_elem|apply before_prefix].
    + rewrite bool_decide_eq_false_2 by done.
      split; [done|]. split; [done|]. exists []. by rewrite app_nil_r.
Qed.

Lemma provisional_name_code long_name :
  provisional_name long_name = without_marker long_name.
Proof.
  unfold without_marker.
  destruct (Py.startswith long_name "(.)" 0) eqn:Hs.
  - apply startswith_scale in Hs as [rest ->].
    by rewrite slice_from_scale.
  - destruct (scale_cases long_name) as [[rest ->]|[-> _]]; [|done].
    by apply startswith_scale_not with (rest := rest) in Hs.
Qed.

Lemma display_name_code long_name :
  display_name_of long_name =
    (if Py.startswith long_name "(.)" 0 then "(8\pi G/3)" else "") +:+
    without_marker long_name.
Proof.
  unfold without_marker.
  destruct (Py.startswith long_name "(.)" 0) eqn:Hs.
  - apply startswith_scale in Hs as [rest ->].
    by rewrite slice_from_scale.
  - destruct (scale_cases long_name) as [[rest ->]|[_ ->]]; [|done].
    by apply startswith_scale_not with (rest := rest) in Hs.
Qed.

Lemma chars_provisional_subseteq long_name x :
  x ∈ Py.chars (provisional_name long_name) -> x ∈ Py.chars long_name.
Proof.
  destruct (scale_cases long_name) as [[rest ->]|[-> _]]; [|done].
  intros Hx. change (x ∈ "("%char :: "."%char :: ")"%char :: Py.chars rest).
  by do 3 apply list_elem_of_further.
Qed.

(** X2: no short name contains ['(']; and a short name contains ['[']
    only when its long name contains ['('] (the first test of the second
    pass wins, so a bracket before a parenthesis survives). *)
Theorem short_names_without_parenthesis (long_names : list string) :
  exists names tex_names,
    process_long_names long_names = Ok (names, tex_names) /\
    Forall2 (fun long_name name =>
               ("("%char ∉ Py.chars name) /\
               ("("%char ∉ Py.chars long_name -> "["%char ∉ Py.chars name))
            long_names names.
Proof.
  eexists _, _. split; [apply process_long_names_spec|].
  apply Forall2_fmap_r, Forall_Forall2_diag, Forall_forall.
  intros long_name _. unfold short_name_of.
  destruct (strip_annotation_chars (provisional_name long_name))
    as (Hp & Hb & _).
  split; [done|]. intros Hlong. apply Hb.
  intros Hin. by apply Hlong, chars_provisional_subseteq.
Qed.

(** X3: long names without parenthesis and without bracket are returned
    as they are, both as short names and as display names. *)
Theorem process_long_names_plain (long_names : list string) :
  Forall (fun name => ("("%char ∉ Py.chars name) /\ "["%char ∉ Py.chars name)
         long_names ->
  process_long_names long_names = Ok (long_names, long_names).
Proof.
  intros Hplain. rewrite process_long_names_spec.
  assert (Hid : Forall (fun name => short_name_of name = name /\
                                    display_name_of name = name) long_names).
  { eapply Forall_impl; [exact Hplain|]. intros name [Hp Hb].
    destruct (scale_cases name) as [[rest ->]|[Hprov Hdisp]].
    { exfalso. apply Hp. apply list_elem_of_here. }
    split; [|done]. unfold short_name_of, strip_annotation.
    rewrite Hprov. by rewrite !bool_decide_eq_false_2. }
  clear Hplain.
  do 2 f_equal; induction Hid as [|name l [Hs Hd] _ IH]; try done;
    rewrite fmap_cons, IH; congruence.
Qed.

Lemma process_long_names_plain_witness :
  process_long_names ["TT"; "EE"; "phi-T"] = Ok (["TT"; "EE"; "phi-T"],
                                                  ["TT"; "EE"; "phi-T"]).
Proof.
  apply (process_long_names_plain ["TT"; "EE"; "phi-T"]).
  repeat constructor; apply (bool_decide_eq_false_1 _); reflexivity.
Defined.

(** X4: the second pass only ever cuts a tail off. Each short name is a
    prefix of its long name without the scale marker, and each display
    name is that whole text, preceded by the expanded scale when the
    marker was there. *)
Theorem short_name_prefix_display_name_whole (long_names : list string) :
  exists names tex_names,
    process_long_names long_names = Ok (names, tex_names) /\
    Forall2 (fun long_name name =>
               exists rest,
                 Py.chars (without_marker long_name) = Py.chars name ++ rest)
            long_names names /\
    Forall2 (fun long_name tex_name =>
               tex_name =
                 (if Py.startswith long_name "(.)" 0 then "(8\pi G/3)" else "")
                 +:+ without_marker long_name)
            long_names tex_names.
Proof.
  eexists _, _. split; [apply process_long_names_spec|]. split.
  - apply Forall2_fmap_r, Forall_Forall2_diag, Forall_forall.
    intros long_name _. unfold short_name_of.
    rewrite <- provisional_name_code.
    by destruct (strip_annotation_chars (provisional_name long_name))
      as (_ & _ & ?).
  - apply Forall2_fmap_r, Forall_Forall2_diag, Forall_forall.
    intros long_name _. apply display_name_code.
Qed.

(** ** The header decoder *)

Lemma last_filter {A} (P : A -> Prop) `{!forall x, Decision (P x)}
    (l : list A) (h : A) :
  last (filter P l) = Some h <->
  exists pre post, l = pre ++ h :: post /\ P h /\ Forall (fun x => ~ P x) post.
Proof.
  induction l as [|x l IH] using rev_ind.
  - split; [discriminate|].
    intros (pre & post & Heq & _). by destruct pre.
  - rewrite filter_app, filter_cons, filter_nil.
    destruct (decide (P x)) as [Hx|Hx].
    + rewrite last_snoc. split.
      * intros [= <-]. exists l, []. by repeat split.
      * intros (pre & post & Heq & Hh & Hpost).
        destruct post as [|y post _] using rev_ind.
        { by apply app_inj_tail in Heq as [_ ->]. }
        rewrite app_comm_cons, app_assoc in Heq.
        apply app_inj_tail in Heq as [_ ->].
        apply Forall_app in Hpost as [_ Hy].
        by apply Forall_inv in Hy.
    + rewrite app_nil_r, IH. split.
      * intros (pre & post & -> & Hh & Hpost).
        exists pre, (post ++ [x]). rewrite <- app_assoc. split; [done|].
        split; [done|]. apply Forall_app. split; [done|]. by constructor.
      * intros (pre & post & Heq & Hh & Hpost).
        destruct post as [|y post _] using rev_ind.
        { apply app_inj_tail in Heq as [_ ->]. contradiction. }
        rewrite app_comm_cons, app_assoc in Heq.
        apply app_inj_tail in Heq as [-> _].
        apply Forall_app in Hpost as [Hpost _].
        by exists pre, post.
Qed.

Lemma header_line_Ok_iff (text header : string) :
  header_line text = Ok header <->
  exists pre post,
    Py.lines text = pre ++ header :: post /\
    is_comment header /\
    Forall (fun line => ~ is_comment line) post.
Proof.
  rewrite header_line_spec, <- (last_filter is_comment).
  unfold Py.last_item, is_comment.
  destruct (last _); split; congruence.
Qed.

(** X5: the header of a file is its last line that starts with ['#']:
    comment lines before it, and data lines after it, do not count. *)
Theorem header_line_is_last_comment (text header : string) :
  header_line text = Ok header <->
  exists pre post,
    Py.lines text = pre ++ header :: post /\
    is_comment header /\
    Forall (fun line => ~ is_comment line) post.
Proof. apply header_line_Ok_iff. Qed.

Lemma count_markers (c : ascii) (l : list ascii) :
  length (filter (fun k => l !! k = Some c) (seq 0 (length l))) =
  length (filter (fun x => x = c) l).
Proof.
  induction l as [|x l IH]; [reflexivity|].
  change (seq 0 (length (x :: l))) with (0 :: seq 1 (length l)).
  rewrite <- fmap_S_seq, !filter_cons, filter_fmap_S.
  assert (Hshift :
    filter (fun i => (x :: l) !! S i = Some c) (seq 0 (length l)) =
    filter (fun k => l !! k = Some c) (seq 0 (length l))) by reflexivity.
  rewrite Hshift. clear Hshift.
  destruct (decide ((x :: l) !! 0 = Some c)) as [H0|H0];
    destruct (decide (x = c)) as [Hx|Hx]; cbn [length];
    rewrite ?length_fmap, ?IH; try done.
  - injection H0 as ->. contradiction.
  - subst x. contradiction.
Qed.

(** X6: whenever [extract_headers] returns, the number of columns is the
    number of [':'] characters of the header line, and it is the length
    of both lists of names. *)
Theorem extract_headers_counts (fs : file_system) (path : string)
    (n : nat) (names tex_names : list string) :
  extract_headers fs path = Ok (n, names, tex_names) ->
  length names = n /\ length tex_names = n /\
  exists text header,
    fs !! path = Some text /\ header_line text = Ok header /\
    n = length (filter (fun c => c = ":"%char) (Py.chars header)).
Proof.
  intros Hh.
  destruct (extract_headers_length _ _ _ _ _ Hh) as [Hn Ht].
  apply extract_headers_inv in Hh
    as (text & header & _ & Hfs & Hl & -> & _).
  split; [done|]. split; [done|]. exists text, header.
  split; [done|]. split; [done|].
  unfold markers. by rewrite <- length_chars, count_markers.
Qed.

Lemma extract_headers_counts_witness :
  exists text header,
    disk !! "output/bg.dat" = Some text /\ header_line text = Ok header /\
    3 = length (filter (fun c => c = ":"%char) (Py.chars header)).
Proof.
  apply (extract_headers_counts disk "output/bg.dat" 3 ["x"; "rho"; "P "]
           ["x"; "(8\pi G/3)rho"; "P [Mpc^-3]"] eq_refl).
Defined.

Lemma extract_headers_cases (fs : file_system) (path : string) :
  match fs !! path with
  | None => extract_headers fs path = Raise IOError
  | Some text =>
      if decide (Exists is_comment (Py.lines text))
      then is_Ok (extract_headers fs path)
      else extract_headers fs path = Raise IndexError
  end.
Proof.
  unfold extract_headers, read_file.
  destruct (fs !! path) as [text|]; cbn [mbind result_bind]; [|done].
  destruct (header_line text) as [header|e0] eqn:Hh; cbn [mbind result_bind].
  - destruct (decode_header_columns header (header_line_hash _ _ Hh))
      as (long_names & _ & Hd & _).
    rewrite Hd. rewrite decide_True; [by eexists|].
    apply header_line_Ok_iff in Hh as (pre & post & -> & Hc & _).
    apply Exists_app. right. by constructor.
  - rewrite header_line_spec in Hh. unfold Py.last_item in Hh.
    destruct (last _) eqn:Hlast; [discriminate|].
    injection Hh as <-. apply last_None in Hlast.
    rewrite decide_False; [done|].
    intros (line & Hin & Hc)%Exists_exists.
    by apply (filter_nil_not_elem_of _ _ line Hlast).
Qed.

Lemma extract_headers_raises (fs : file_system) (path : string) :
  raises_only (fun e => e = IOError \/ e = IndexError)
              (extract_headers fs path).
Proof.
  intros e He. pose proof (extract_headers_cases fs path) as Hc.
  destruct (fs !! path) as [text|].
  - destruct (decide _).
    + destruct Hc as [r Hr]. congruence.
    + right. congruence.
  - left. congruence.
Qed.

(** X7: [extract_headers] returns exactly when the file exists and one of
    its lines starts with ['#'], whatever that line holds; otherwise it
    raises [IOError] (no such file) or [IndexError] (no such line), and
    nothing else. *)
Theorem extract_headers_outcome (fs : file_system) (path : string) :
  (is_Ok (extract_headers fs path) <->
   exists text, fs !! path = Some text /\ Exists is_comment (Py.lines text)) /\
  (extract_headers fs path = Raise IOError <-> fs !! path = None) /\
  raises_only (fun e => e = IOError \/ e = IndexError)
              (extract_headers fs path).
Proof.
  split; [|split; [|apply extract_headers_raises]];
    pose proof (extract_headers_cases fs path) as Hc;
    destruct (fs !! path) as [text|].
  - destruct (decide _) as [Hex|Hex].
    + split; [|done]. intros _. by exists text.
    + rewrite Hc. split; [intros [? [=]]|].
      by intros (? & [= <-] & ?).
  - rewrite Hc. split; [intros [? [=]]|by intros (? & [=] & _)].
  - destruct (decide _).
    + destruct Hc as [r ->]. split; discriminate.
    + rewrite Hc. split; discriminate.
  - done.
Qed.

(** ** Trimmed names *)

Lemma lstrip_head l c :
  head (Py.lstrip_chars l) = Some c -> Py.is_space c = false.
Proof.
  induction l as [|x l IH]; simpl; [done|].
  destruct (Py.is_space x) eqn:Hx; [done|]. by intros [= <-].
Qed.

Lemma rstrip_head l c :
  head (Py.rstrip_chars l) = Some c -> head l = Some c.
Proof.
  destruct l as [|x l]; simpl; [done|].
  destruct (Py.rstrip_chars l); [|done].
  by destruct (Py.is_space x).
Qed.

Lemma rstrip_last l c :
  last (Py.rstrip_chars l) = Some c -> Py.is_space c = false.
Proof.
  induction l as [|x l IH]; simpl; [done|].
  destruct (Py.rstrip_chars l) as [|y r].
  - destruct (Py.is_space x) eqn:Hx; [done|]. by intros [= <-].
  - rewrite last_cons_cons. exact IH.
Qed.

Lemma strip_trimmed s : trimmed (Py.strip s).
Proof.
  unfold trimmed, Py.strip. rewrite chars_join. split.
  - intros c Hc%rstrip_head. by apply lstrip_head in Hc.
  - apply rstrip_last.
Qed.

Lemma long_name_trimmed header indices n i t :
  long_name header indices n i = Ok t -> trimmed t.
Proof.
  unfold long_name, Py.item.
  destruct (_ <? _)%Z.
  - destruct (indices !! i); [|discriminate].
    destruct (indices !! (i + 1)); [|discriminate].
    intros [= <-]. apply strip_trimmed.
  - destruct (indices !! i); [|discriminate].
    intros [= <-]. apply strip_trimmed.
Qed.

Lemma mapM_Forall {A B} (f : A -> result B) (P : B -> Prop) (l : list A) :
  (forall x y, f x = Ok y -> P y) ->
  forall k, mapM f l = Ok k -> Forall P k.
Proof.
  intros Hf. induction l as [|x l IH]; intros k.
  - intros [= <-]. constructor.
  - cbn [mapM]. destruct (f x) as [y|] eqn:Hy; [|discriminate].
    cbn [mbind result_bind].
    destruct (mapM f l) as [k'|]; [|discriminate].
    intros [= <-]. constructor; [by eapply Hf|by apply IH].
Qed.

Lemma display_name_trimmed long_name :
  trimmed long_name -> trimmed (display_name_of long_name).
Proof.
  destruct (scale_cases long_name) as [[rest ->]|[_ ->]]; [|done].
  intros [_ Hlast]. split.
  - intros c [= <-]. reflexivity.
  - intros c. change (Py.chars (display_name_of _))
      with (Py.chars "(8\pi G/3" ++ ")"%char :: Py.chars rest).
    rewrite last_app_cons. intros Hc. apply Hlast.
    by change (last ([ "("%char; "."%char] ++ ")"%char :: Py.chars rest) = Some c);
      rewrite last_app_cons.
Qed.

(** X8: the display names that [extract_headers] returns neither start nor
    end with whitespace (the long names are stripped, and the display
    form only changes a leading marker). *)
Theorem extract_headers_display_names_trimmed (fs : file_system)
    (path : string) (n : nat) (names tex_names : list string) :
  extract_headers fs path = Ok (n, names, tex_names) ->
  Forall trimmed tex_names.
Proof.
  unfold extract_headers, read_file.
  destruct (fs !! path) as [text|]; [|discriminate].
  cbn [mbind result_bind].
  destruct (header_line text) as [header|] eqn:Hh; [|discriminate].
  cbn [mbind result_bind].
  destruct (decode_header_columns header (header_line_hash _ _ Hh))
    as (long_names & Hs & -> & _).
  intros [= _ _ <-]. apply Forall_fmap.
  unfold split_header in Hs. cbv zeta in Hs.
  destruct (mapM _ _) as [k|] eqn:Hk; [|discriminate].
  injection Hs as _ <-.
  eapply Forall_impl; [eapply mapM_Forall, Hk|].
  - intros i t. apply long_name_trimmed.
  - intros t. apply display_name_trimmed.
Qed.

Lemma extract_headers_display_names_trimmed_witness :
  Forall trimmed ["x"; "(8\pi G/3)rho"; "P [Mpc^-3]"].
Proof.
  apply (extract_headers_display_names_trimmed disk "output/bg.dat" 3
           ["x"; "rho"; "P "] _ eq_refl).
Defined.

(** ** What [plot_CLASS_output] draws *)



Lemma list_index_elem_of l x : x ∈ l -> is_Ok (Py.list_index l x).
Proof.
  induction 1 as [y l|y z l _ [i IH]]; simpl.
  - rewrite decide_True by done. by eexists.
  - destruct (decide (z = y)); [by eexists|]. rewrite IH. by eexists.
Qed.

Lemma list_index_not_elem_of l x :
  x ∉ l -> Py.list_index l x = Raise ValueError.
Proof.
  induction l as [|y l IH]; intros Hx; simpl; [done|].
  apply not_elem_of_cons in Hx as [Hne Hx].
  rewrite decide_False by congruence. by rewrite IH.
Qed.





Section FigureFacts.

Context {data : Type} (parse : string -> option data).

(** What a returned figure was made from. *)
Lemma plot_CLASS_output_inv fs files sel ratio scale fig :
  plot_CLASS_output parse fs files sel ratio scale = Ok fig ->
  exists tables file0 roots n names tex_names sel',
    mapM (loadtxt parse fs) files = Ok tables /\
    files !! 0 = Some file0 /\
    mapM root_of files = Ok roots /\
    extract_headers fs file0 = Ok (n, names, tex_names) /\
    check_selection n names sel = Ok sel' /\
    fig_selection fig = sel' /\
    fig_script_path fig = file0 +:+ ".py" /\
    if ratio then fig_curves fig = [] /\ fig_legend fig = None
    else exists curves,
      mapM (plot_curves fs files sel' scale) (seq 0 (length tables))
        = Ok curves /\
      fig_curves fig = concat curves /\
      fig_legend fig =
        Some (root ← roots; elem ← selection_items sel';
              [root +:+ ": " +:+ elem]).
Proof.
  unfold plot_CLASS_output, Py.item.
  destruct (mapM (loadtxt parse fs) files) as [tables|] eqn:Ht;
    [|discriminate].
  cbn [mbind result_bind].
  destruct (files !! 0) as [file0|] eqn:Hf; [|discriminate].
  cbn [mbind result_bind].
  destruct (mapM root_of files) as [roots|] eqn:Hr; [|discriminate].
  cbn [mbind result_bind].
  destruct (extract_headers fs file0) as [[[n names] tex_names]|] eqn:Hh;
    [|discriminate].
  cbn [mbind result_bind].
  destruct (check_selection n names sel) as [sel'|] eqn:Hc; [|discriminate].
  cbn [mbind result_bind]. intros Hfig.
  exists tables, file0, roots, n, names, tex_names, sel'.
  do 5 (split; [done|]).
  destruct ratio; cbn [negb] in Hfig.
  - destruct (tables !! 0); [|discriminate]. by injection Hfig as <-.
  - destruct (mapM _ (seq 0 (length tables))) as [curves|] eqn:Hcs;
      [|discriminate].
    injection Hfig as <-. do 2 (split; [done|]). by exists curves.
Qed.




(** X12: called with [ratio=True], [plot_CLASS_output] decodes and checks
    as usual but, when it returns, has drawn no curve and no legend. *)
Theorem ratio_draws_nothing fs files sel scale fig :
  plot_CLASS_output parse fs files sel true scale = Ok fig ->
  fig_curves fig = [] /\ fig_legend fig = None /\
  exists file0 n names tex_names,
    files !! 0 = Some file0 /\
    extract_headers fs file0 = Ok (n, names, tex_names) /\
    check_selection n names sel = Ok (fig_selection fig).
Proof.
  intros (tables & file0 & roots & n & names & tex & sel' & _ & Hf & _ & Hh
          & Hc & <- & _ & -> & ->)%plot_CLASS_output_inv.
  do 2 (split; [done|]). by exists file0, n, names, tex.
Qed.

End FigureFacts.




Lemma ratio_draws_nothing_witness :
  exists fig,
    plot_CLASS_output any_table disk ["output/bg.dat"; "output/test_pk.dat"]
      (SelList ["rho"]) true "lin" = Ok fig /\
    fig_curves fig = [] /\ fig_legend fig = None.
Proof.
  eexists. split; [vm_compute; reflexivity|].
  destruct (ratio_draws_nothing any_table disk ["output/bg.dat"; "output/test_pk.dat"]
              (SelList ["rho"]) "lin" _ eq_refl) as (Hc & Hl & _).
  split; [exact Hc | exact Hl].
Defined.


(** ** The selection check, again *)

(** X13: the selection check is idempotent: checking the selection it
    returned returns it again. *)
Theorem check_selection_idempotent (n : nat) (names : list string)
    (sel sel' : selection) :
  check_selection n names sel = Ok sel' ->
  check_selection n names sel' = Ok sel'.
Proof.
  destruct (decide (n = 2)) as [->|Hn2].
  - unfold check_selection. rewrite !decide_True by done.
    destruct (Py.item names 1) as [name|]; [|discriminate].
    by intros [= <-].
  - destruct (decide (2 < n)) as [Hn|Hn].
    + rewrite !check_selection_many by done.
      destruct (validate_selection names (requested sel)) as [[]|] eqn:Hv;
        [|discriminate].
      intros [= <-]. cbn [requested]. by rewrite Hv.
    + rewrite !check_selection_few by lia. by intros [= <-].
Qed.

Lemma check_selection_idempotent_witness :
  check_selection 3 ["x"; "rho"; "P "] (SelList ["rho"]) = Ok (SelList ["rho"]).
Proof.
  apply (check_selection_idempotent 3 ["x"; "rho"; "P "] (SelStr "rho")).
  reflexivity.
Defined.

Lemma validate_selection_Ok names items :
  validate_selection names items = Ok tt ->
  Forall (fun e => e ∈ names) items.
Proof.
  induction items as [|elem items IH]; [constructor|].
  cbn [validate_selection].
  destruct (decide (elem ∈ names)) as [Hin|Hout].
  - rewrite bool_decide_eq_true_2 by done. cbn [negb].
    intros Hv. constructor; [done|by apply IH].
  - by rewrite bool_decide_eq_false_2.
Qed.

(** X14: when the first file has at least two columns and the check
    passes, every name of the selection it returns is a short name of the
    first file. *)
Theorem checked_selection_is_known (fs : file_system) (file0 : string)
    (n : nat) (names tex_names : list string) (sel sel' : selection) :
  extract_headers fs file0 = Ok (n, names, tex_names) ->
  2 <= n ->
  check_selection n names sel = Ok sel' ->
  Forall (fun e => e ∈ names) (selection_items sel').
Proof.
  intros Hh Hn. destruct (decide (n = 2)) as [->|Hn2].
  - destruct (extract_headers_length _ _ _ _ _ Hh) as [Hlen _].
    destruct (check_selection_two names sel Hlen)
      as (name0 & name1 & -> & ->).
    intros [= <-]. repeat constructor.
  - rewrite check_selection_many by lia.
    destruct (validate_selection names (requested sel)) as [[]|] eqn:Hv;
      [|discriminate].
    intros [= <-]. by apply validate_selection_Ok.
Qed.

Lemma checked_selection_is_known_witness :
  Forall (fun e => e ∈ ["k "; "P "]) (selection_items (SelList ["P "])).
Proof.
  apply (checked_selection_is_known disk "output/test_pk.dat" 2 ["k "; "P "]
           ["k (h/Mpc)"; "P (Mpc/h)^3"] (SelStr "TT") (SelList ["P "])
           eq_refl ltac:(lia) eq_refl).
Defined.

(** ** When [plot_CLASS_output] returns, and when a name is missing *)





Section Outcomes.

Context {data : Type} (parse : string -> option data).




End Outcomes.



(** ** The command line driver *)

Section Driver.

Context {data : Type} (parse : string -> option data).

Lemma main_plots fs a file0 rest sel inferred :
  args_files a = file0 :: rest -> args_ratio a = false ->
  infer_selection a = Ok (sel, inferred) ->
  main parse fs a =
    Rendered <$>
      plot_CLASS_output parse fs (file0 :: rest) sel false
        (chosen_scale a inferred).
Proof.
  intros Hf Hr Hi. unfold main. rewrite Hf, Hr, Hi.
  cbn [length]. rewrite decide_False by done.
  cbn [mbind result_bind]. unfold chosen_scale.
  by destruct (plot_CLASS_output _ _ _ _ _ _).
Qed.


(** X18: with files, without [-r] and without a selection, the field is
    read off the path of the first file: ['TT'] when it contains [cl]
    anywhere, else ['P'] when it contains [pk], both on ['loglog'] unless
    a scale is given. *)
Theorem main_infers_selection fs a file0 rest :
  args_files a = file0 :: rest -> args_ratio a = false ->
  args_selection a = None ->
  (Py.rfind file0 "cl" <> (-1)%Z ->
   main parse fs a =
     Rendered <$>
       plot_CLASS_output parse fs (file0 :: rest) (SelStr "TT") false
         (chosen_scale a "loglog")) /\
  (Py.rfind file0 "cl" = (-1)%Z -> Py.rfind file0 "pk" <> (-1)%Z ->
   main parse fs a =
     Rendered <$>
       plot_CLASS_output parse fs (file0 :: rest) (SelStr "P") false
         (chosen_scale a "loglog")).
Proof.
  intros Hf Hr Hs. split.
  - intros Hcl. apply main_plots; [done|done|].
    unfold infer_selection, Py.item. rewrite Hs, Hf.
    cbn [lookup list_lookup mbind result_bind].
    by rewrite (proj2 (Z.eqb_neq _ _) Hcl).
  - intros Hcl Hpk. apply main_plots; [done|done|].
    unfold infer_selection, Py.item. rewrite Hs, Hf.
    cbn [lookup list_lookup mbind result_bind].
    rewrite Hcl. cbn [Z.eqb negb].
    by rewrite (proj2 (Z.eqb_neq _ _) Hpk).
Qed.

(** X19: with files, without [-r], without a selection and with a first
    path that contains neither [cl] nor [pk], [main] raises [TypeError]
    before any file is opened. *)
Theorem main_cannot_infer_field fs a file0 rest :
  args_files a = file0 :: rest -> args_ratio a = false ->
  args_selection a = None \/ args_selection a = Some [] ->
  Py.rfind file0 "cl" = (-1)%Z -> Py.rfind file0 "pk" = (-1)%Z ->
  main parse fs a = Raise (TypeError "Please specify a field to plot").
Proof.
  intros Hf Hr Hs Hcl Hpk. unfold main. rewrite Hf, Hr.
  cbn [length]. rewrite decide_False by done.
  assert (Hi : infer_selection a =
               Raise (TypeError "Please specify a field to plot")).
  { unfold infer_selection, Py.item.
    destruct Hs as [-> | ->]; rewrite Hf;
      cbn [lookup list_lookup mbind result_bind];
      by rewrite Hcl, Hpk. }
  by rewrite Hi.
Qed.

Lemma raises_only_bind {A B} (P : exn -> Prop) (m : result A)
    (f : A -> result B) :
  raises_only P m -> (forall x, raises_only P (f x)) -> raises_only P (m ≫= f).
Proof.
  intros Hm Hf e. destruct m as [x|e0]; cbn [mbind result_bind].
  - apply Hf.
  - intros [= <-]. by apply Hm.
Qed.

Lemma raises_only_mapM {A B} (P : exn -> Prop) (f : A -> result B)
    (l : list A) :
  (forall x, raises_only P (f x)) -> raises_only P (mapM f l).
Proof.
  intros Hf. induction l as [|x l IH]; [by intros e|].
  cbn [mapM]. apply raises_only_bind; [apply Hf|]. intros y.
  apply raises_only_bind; [apply IH|]. by intros k e.
Qed.

Lemma raises_only_item {A} (l : list A) i :
  raises_only plot_error (Py.item l i).
Proof.
  intros e. unfold Py.item. destruct (l !! i); [done|].
  intros [= <-]. right. by left.
Qed.

Lemma raises_only_extract_headers fs path :
  raises_only plot_error (extract_headers fs path).
Proof.
  intros e [-> | ->]%extract_headers_raises; right.
  - right. right. by left.
  - by left.
Qed.

Lemma raises_only_loadtxt fs path :
  raises_only plot_error (loadtxt parse fs path).
Proof.
  unfold loadtxt, read_file. intros e.
  destruct (fs !! path) as [text|]; cbn [mbind result_bind].
  - destruct (parse text); [done|]. intros [= <-]. right. by do 3 right.
  - intros [= <-]. right. right. right. by left.
Qed.

Lemma raises_only_root_of elem : raises_only plot_error (root_of elem).
Proof. intros e He. destruct (root_of_total elem) as [r Hr]. congruence. Qed.

Lemma raises_only_validate names items :
  raises_only plot_error (validate_selection names items).
Proof.
  induction items as [|elem items IH]; [by intros e|].
  cbn [validate_selection]. destruct (negb _); [|exact IH].
  intros e [= <-]. left. by eexists.
Qed.

Lemma raises_only_check_selection n names sel :
  raises_only plot_error (check_selection n names sel).
Proof.
  unfold check_selection. destruct (decide (n = 2)) as [Hn2|Hn2].
  - apply raises_only_bind; [apply raises_only_item|]. by intros name e.
  - destruct (decide (2 < n)) as [Hn|Hn]; [|by intros e].
    apply raises_only_bind; [apply raises_only_validate|]. by intros [] e.
Qed.

Lemma raises_only_list_index l x :
  raises_only plot_error (Py.list_index l x).
Proof.
  intros e He. destruct (decide (x ∈ l)) as [Hin|Hout].
  - destruct (list_index_elem_of _ _ Hin) as [i Hi]. congruence.
  - rewrite list_index_not_elem_of in He by done.
    injection He as <-. right. right. by left.
Qed.

Lemma raises_only_plot_curves fs files sel scale idx :
  raises_only plot_error (plot_curves fs files sel scale idx).
Proof.
  unfold plot_curves.
  apply raises_only_bind; [apply raises_only_item|]. intros file.
  apply raises_only_bind; [apply raises_only_extract_headers|].
  intros [[n names] tex]. apply raises_only_mapM. intros selec.
  apply raises_only_bind; [apply raises_only_list_index|]. by intros i e.
Qed.

Lemma raises_only_plot fs files sel ratio scale :
  raises_only plot_error (plot_CLASS_output parse fs files sel ratio scale).
Proof.
  unfold plot_CLASS_output.
  apply raises_only_bind; [apply raises_only_mapM, raises_only_loadtxt|].
  intros tables.
  apply raises_only_bind; [apply raises_only_item|]. intros file0.
  apply raises_only_bind; [apply raises_only_mapM, raises_only_root_of|].
  intros roots.
  apply raises_only_bind; [apply raises_only_extract_headers|].
  intros [[n names] tex].
  apply raises_only_bind; [apply raises_only_check_selection|].
  intros sel'. destruct ratio; cbn [negb].
  - apply raises_only_bind; [apply raises_only_item|]. by intros ref e.
  - apply raises_only_bind;
      [apply raises_only_mapM, raises_only_plot_curves|]. by intros cs e.
Qed.

(** X20: whatever the arguments and the files, [main] ends in no
    exception other than [InputError], the [TypeError] of a field that
    cannot be inferred, or an error of Python or numpy; [FormatError] and
    [NumberOfFilesError] are never raised. *)
Theorem main_exceptions fs a :
  raises_only
    (fun e => (exists msg, e = InputError msg) \/
              e = TypeError "Please specify a field to plot" \/
              builtin_error e)
    (main parse fs a) /\
  (forall msg, main parse fs a <> Raise (FormatError msg)) /\
  (forall msg, main parse fs a <> Raise (NumberOfFilesError msg)).
Proof.
  assert (Hmain : raises_only
    (fun e => (exists msg, e = InputError msg) \/
              e = TypeError "Please specify a field to plot" \/
              builtin_error e) (main parse fs a)).
  { unfold main. destruct (decide _) as [Hnil|Hnil]; [by intros e|].
    destruct (args_ratio a) eqn:Hr.
    { intros e [= <-]. left. by eexists. }
    apply raises_only_bind.
    - unfold infer_selection, Py.item. intros e.
      assert (Hnone :
        (file0 ← match args_files a !! 0 with
                 | Some x => Ok x | None => Raise IndexError end;
         if negb (Py.rfind file0 "cl" =? -1)%Z
         then mret (SelStr "TT", "loglog")
         else if negb (Py.rfind file0 "pk" =? -1)%Z
              then mret (SelStr "P", "loglog")
              else Raise (TypeError "Please specify a field to plot"))
        = Raise e ->
        (exists msg, e = InputError msg) \/
        e = TypeError "Please specify a field to plot" \/ builtin_error e).
      { destruct (args_files a !! 0) as [file0|];
          cbn [mbind result_bind].
        - destruct (negb _); [done|]. destruct (negb _); [done|].
          intros [= <-]. right. by left.
        - intros [= <-]. right. right. by left. }
      destruct (args_selection a) as [[|x l]|]; [exact Hnone|done|exact Hnone].
    - intros [sel inferred]. apply raises_only_bind; [by intros e|].
      intros _. apply raises_only_bind; [|by intros fig e].
      intros e [Hin|Hb]%raises_only_plot; [by left|by do 2 right]. }
  split; [exact Hmain|]. split; intros msg He.
  - apply Hmain in He as [[? [=]]|[[=]|[[=]|[[=]|[[=]|[=]]]]]].
  - apply Hmain in He as [[? [=]]|[[=]|[[=]|[[=]|[[=]|[=]]]]]].
Qed.

End Driver.


Lemma main_infers_selection_witness :
  main any_table disk (Args ["output/test_pk.dat"] false None None) =
  Rendered <$>
    plot_CLASS_output any_table disk ["output/test_pk.dat"] (SelStr "P")
      false "loglog".
Proof.
  apply (main_infers_selection any_table disk
           (Args ["output/test_pk.dat"] false None None)
           "output/test_pk.dat" []); try reflexivity.
  vm_compute. discriminate.
Defined.

Lemma main_cannot_infer_field_witness :
  main any_table disk (Args ["output/bg.dat"] false None None) =
  Raise (TypeError "Please specify a field to plot").
Proof.
  apply (main_cannot_infer_field any_table disk
           (Args ["output/bg.dat"] false None None) "output/bg.dat" []);
    try reflexivity.
  by left.
Defined.
